(** * iONA Energy API client: token lifecycle and read operations

    A shallow embedding of [custom_components/ionaenergy/api.py] (class
    [IONAEnergyAPI]) and of the constants of [const.py].

    Python objects are kept dynamically typed ([pyobj]); instance
    attributes live in a record; the network, the clock, the host's
    configuration entry and the logger are components of an explicit
    [world] that every coroutine threads through a state-and-exception
    monad.  Coroutines are run to completion: an [await] is sequencing. *)

From Stdlib Require Import ZArith QArith Lqa String Ascii List Lia DecimalString.
From stdpp Require Import base option gmap strings list.

#[local] Set Warnings "-register-all".
#[local] Open Scope Z_scope.
#[local] Open Scope string_scope.

(** ** Python objects *)

(** The objects that [aiohttp]'s [response.json()] can produce, which are
    also the objects stored in the instance attributes and in the
    configuration entry.  [float] is idealised as an exact rational. *)
Inductive pyobj : Type :=
| PyNone
| PyBool (b : bool)
| PyInt (z : Z)
| PyFloat (q : Q)
| PyStr (s : string)
| PyList (l : list pyobj)
| PyDict (d : gmap string pyobj).

(** Exceptions that the client raises or lets through. *)
Inductive exn : Type :=
| ValueError (msg : string)
| AttributeError (attr : string)
| TypeError (msg : string)
| KeyError (key : string)
| IndexError (msg : string)
| OverflowError (msg : string)
(** [aiohttp.ClientResponseError(request_info, history, status=, message=)];
    [request_info] is represented by the URL of the request. *)
| ClientResponseError (request_url : string) (status : Z) (message : string)
(** [response.json()] on a body that is not JSON. *)
| ContentTypeError
(** transport failures: no connection, or the 30 second timeout. *)
| ClientConnectionError
| TimeoutError.

Inductive result (A : Type) : Type :=
| Ok (a : A)
| Raise (e : exn).
Arguments Ok {A} a.
Arguments Raise {A} e.

#[export] Instance result_ret : MRet result := fun A a => Ok a.
#[export] Instance result_bind : MBind result := fun A B f r =>
  match r with
  | Ok a => f a
  | Raise e => Raise e
  end.

(** Truth value of an object, as used by [not x] and [if x]. *)
Definition truthy (o : pyobj) : bool :=
  match o with
  | PyNone => false
  | PyBool b => b
  | PyInt z => negb (z =? 0)%Z
  | PyFloat q => negb (Qnum q =? 0)%Z
  | PyStr s => negb (String.eqb s "")
  | PyList l => match l with [] => false | _ :: _ => true end
  | PyDict d => negb (bool_decide (d = ∅))
  end.

(** [o.get(key, default)]: only [dict] has the method. *)
Definition py_get (o : pyobj) (key : string) (dflt : pyobj) : result pyobj :=
  match o with
  | PyDict d => Ok (default dflt (d !! key))
  | _ => Raise (AttributeError "get")
  end.

(** [o[key]] with a string key. *)
Definition py_getitem (o : pyobj) (key : string) : result pyobj :=
  match o with
  | PyDict d =>
      match d !! key with
      | Some v => Ok v
      | None => Raise (KeyError key)
      end
  | PyList _ => Raise (TypeError "list indices must be integers or slices, not str")
  | PyStr _ => Raise (TypeError "string indices must be integers, not 'str'")
  | _ => Raise (TypeError "object is not subscriptable")
  end.

Fixpoint last_char (s : string) : option ascii :=
  match s with
  | EmptyString => None
  | String c EmptyString => Some c
  | String _ s' => last_char s'
  end.

(** [o[-1]]. *)
Definition py_getitem_last (o : pyobj) : result pyobj :=
  match o with
  | PyList l =>
      match last l with
      | Some v => Ok v
      | None => Raise (IndexError "list index out of range")
      end
  | PyStr s =>
      match last_char s with
      | Some c => Ok (PyStr (String c EmptyString))
      | None => Raise (IndexError "string index out of range")
      end
  | PyDict _ => Raise (KeyError "-1")
  | _ => Raise (TypeError "object is not subscriptable")
  end.

(** [a == "..."] against a string literal. *)
Definition py_eq_str (o : pyobj) (lit : string) : bool :=
  match o with
  | PyStr s => String.eqb s lit
  | _ => false
  end.

(** [x + o] for a float [x]. *)
Definition float_add (x : Q) (o : pyobj) : result Q :=
  match o with
  | PyInt z => Ok (x + inject_Z z)%Q
  | PyFloat q => Ok (x + q)%Q
  | PyBool b => Ok (x + inject_Z (if b then 1 else 0))%Q
  | _ => Raise (TypeError "unsupported operand type(s) for +")
  end.

Definition Qlt_bool (x y : Q) : bool :=
  (Qnum x * QDen y <? Qnum y * QDen x)%Z.

(** [str(n)] for an [int]. *)
Definition str_int (z : Z) : string := NilZero.string_of_int (Z.to_int z).

(** ** const.py *)

Definition DOMAIN : string := "ionaenergy".
Definition AUTH_URL : string := "https://webapp.iona-energy.com/auth".
Definition CONF_ACCESS_TOKEN : string := "access_token".
Definition CONF_REFRESH_TOKEN : string := "refresh_token".
Definition CONF_EXPIRES_IN : string := "expires_in".

(** ** The world a coroutine runs in *)

(** The host owns one [ConfigEntry] object; the client's [config_entry]
    attribute is [None] or a reference to it.  The entry's [data] mapping
    is the cell [entry_data] of the world, so that the host and the
    client see the same record. *)
Inductive ConfigEntry : Type := the_config_entry.

(** Instance attributes of [IONAEnergyAPI] ([hass], [session] and
    [ssl_context] are never assigned after [__init__]). *)
Record IONAEnergyAPI : Type := {
  access_token : pyobj;
  refresh_token : pyobj;
  expires_in : pyobj;
  config_entry : option ConfigEntry;
  token_created_at : Q;
  last_token_refresh : Q
}.

Record ClientResponse : Type := {
  status : Z;
  (** [await response.text()] *)
  text : string;
  (** [await response.json()]; [None] when the body does not decode. *)
  json : option pyobj
}.

(** What a server does with the next request it receives. *)
Inductive outcome : Type :=
| Responds (r : ClientResponse)
| Fails (e : exn).

Inductive http_method : Type := GET | POST.

Record request : Type := {
  req_method : http_method;
  req_url : string;
  (** the object interpolated in [f"Bearer {...}"], when the request
      carries an [Authorization] header *)
  req_bearer : option pyobj;
  (** the [json=] argument *)
  req_json : option pyobj
}.

Inductive log_level : Type := DEBUG | WARNING | ERROR.

Inductive log_arg : Type :=
| LogInt (z : Z)
| LogStr (s : string)
| LogExn (e : exn).

Record log_record : Type := {
  log_lvl : log_level;
  log_fmt : string;
  log_args : list log_arg
}.

Record world : Type := {
  (** the [IONAEnergyAPI] instance *)
  self : IONAEnergyAPI;
  (** [config_entry.data] of the host's entry: the persisted record *)
  entry_data : gmap string pyobj;
  (** [time.time()]: the [n]-th reading of the clock, and the number of
      readings taken so far *)
  clock : nat -> Q;
  ticks : nat;
  (** [datetime.utcnow()], in microseconds since 0001-01-01T00:00:00 *)
  utcnow : Z;
  (** what the authentication host and the API host will answer to the
      requests to come, in order *)
  auth_server : list outcome;
  api_server : list outcome;
  (** requests sent so far, oldest first *)
  sent : list request;
  (** records handed to [_LOGGER], oldest first *)
  logged : list log_record
}.

Definition with_self (c : IONAEnergyAPI) (w : world) : world :=
  {| self := c; entry_data := entry_data w; clock := clock w; ticks := ticks w;
     utcnow := utcnow w; auth_server := auth_server w; api_server := api_server w;
     sent := sent w; logged := logged w |}.

Definition with_entry_data (d : gmap string pyobj) (w : world) : world :=
  {| self := self w; entry_data := d; clock := clock w; ticks := ticks w;
     utcnow := utcnow w; auth_server := auth_server w; api_server := api_server w;
     sent := sent w; logged := logged w |}.

Definition with_ticks (n : nat) (w : world) : world :=
  {| self := self w; entry_data := entry_data w; clock := clock w; ticks := n;
     utcnow := utcnow w; auth_server := auth_server w; api_server := api_server w;
     sent := sent w; logged := logged w |}.

Definition with_auth_server (q : list outcome) (w : world) : world :=
  {| self := self w; entry_data := entry_data w; clock := clock w; ticks := ticks w;
     utcnow := utcnow w; auth_server := q; api_server := api_server w;
     sent := sent w; logged := logged w |}.

Definition with_api_server (q : list outcome) (w : world) : world :=
  {| self := self w; entry_data := entry_data w; clock := clock w; ticks := ticks w;
     utcnow := utcnow w; auth_server := auth_server w; api_server := q;
     sent := sent w; logged := logged w |}.

Definition with_sent (l : list request) (w : world) : world :=
  {| self := self w; entry_data := entry_data w; clock := clock w; ticks := ticks w;
     utcnow := utcnow w; auth_server := auth_server w; api_server := api_server w;
     sent := l; logged := logged w |}.

Definition with_logged (l : list log_record) (w : world) : world :=
  {| self := self w; entry_data := entry_data w; clock := clock w; ticks := ticks w;
     utcnow := utcnow w; auth_server := auth_server w; api_server := api_server w;
     sent := sent w; logged := l |}.

(** ** The monad of coroutines: state with exceptions

    A raised exception keeps the mutations made before it. *)
Definition M (A : Type) : Type := world -> result A * world.

#[export] Instance M_ret : MRet M := fun A a w => (Ok a, w).
#[export] Instance M_bind : MBind M := fun A B f m w =>
  match m w with
  | (Ok a, w') => f a w'
  | (Raise e, w') => (Raise e, w')
  end.

Definition raise {A : Type} (e : exn) : M A := fun w => (Raise e, w).

(** [try: m except Exception as ex: h ex] *)
Definition try_except {A : Type} (m : M A) (h : exn -> M A) : M A := fun w =>
  match m w with
  | (Ok a, w') => (Ok a, w')
  | (Raise e, w') => h e w'
  end.

Definition lift {A : Type} (r : result A) : M A := fun w => (r, w).

Definition get_self : M IONAEnergyAPI := fun w => (Ok (self w), w).
Definition put_self (c : IONAEnergyAPI) : M unit := fun w => (Ok tt, with_self c w).

(** Attribute assignments [self.x = v]. *)
Definition set_access_token (v : pyobj) : M unit :=
  c ← get_self;
  put_self {| access_token := v; refresh_token := refresh_token c;
              expires_in := expires_in c; config_entry := config_entry c;
              token_created_at := token_created_at c;
              last_token_refresh := last_token_refresh c |}.

Definition set_refresh_token (v : pyobj) : M unit :=
  c ← get_self;
  put_self {| access_token := access_token c; refresh_token := v;
              expires_in := expires_in c; config_entry := config_entry c;
              token_created_at := token_created_at c;
              last_token_refresh := last_token_refresh c |}.

Definition set_expires_in (v : pyobj) : M unit :=
  c ← get_self;
  put_self {| access_token := access_token c; refresh_token := refresh_token c;
              expires_in := v; config_entry := config_entry c;
              token_created_at := token_created_at c;
              last_token_refresh := last_token_refresh c |}.

Definition set_token_created_at (t : Q) : M unit :=
  c ← get_self;
  put_self {| access_token := access_token c; refresh_token := refresh_token c;
              expires_in := expires_in c; config_entry := config_entry c;
              token_created_at := t;
              last_token_refresh := last_token_refresh c |}.

Definition set_last_token_refresh (t : Q) : M unit :=
  c ← get_self;
  put_self {| access_token := access_token c; refresh_token := refresh_token c;
              expires_in := expires_in c; config_entry := config_entry c;
              token_created_at := token_created_at c;
              last_token_refresh := t |}.

(** [time.time()] *)
Definition time_time : M Q := fun w =>
  (Ok (clock w (ticks w)), with_ticks (S (ticks w)) w).

(** [datetime.utcnow()] *)
Definition datetime_utcnow : M Z := fun w => (Ok (utcnow w), w).

(** [_LOGGER.debug], [_LOGGER.warning], [_LOGGER.error] *)
Definition _LOGGER (lvl : log_level) (fmt : string) (args : list log_arg) : M unit :=
  fun w =>
    (Ok tt, with_logged (logged w ++ [{| log_lvl := lvl; log_fmt := fmt; log_args := args |}]) w).

(** [session.post(url, json=body)]: every POST of the client goes to the
    authentication host. *)
Definition session_post (url : string) (body : pyobj) : M ClientResponse := fun w =>
  let w1 := with_sent (sent w ++ [{| req_method := POST; req_url := url;
                                     req_bearer := None; req_json := Some body |}]) w in
  match auth_server w1 with
  | [] => (Raise ClientConnectionError, w1)
  | Responds r :: rest => (Ok r, with_auth_server rest w1)
  | Fails e :: rest => (Raise e, with_auth_server rest w1)
  end.

(** [session.get(url, headers={"Authorization": f"Bearer {token}"})]:
    every GET of the client goes to the API host. *)
Definition session_get (url : string) (token : pyobj) : M ClientResponse := fun w =>
  let w1 := with_sent (sent w ++ [{| req_method := GET; req_url := url;
                                     req_bearer := Some token; req_json := None |}]) w in
  match api_server w1 with
  | [] => (Raise ClientConnectionError, w1)
  | Responds r :: rest => (Ok r, with_api_server rest w1)
  | Fails e :: rest => (Raise e, with_api_server rest w1)
  end.

(** [await response.json()] *)
Definition response_json (r : ClientResponse) : M pyobj :=
  match json r with
  | Some o => mret o
  | None => raise ContentTypeError
  end.

(** [self.hass.config_entries.async_update_entry(entry, data=d)]: the
    host replaces the entry's data by [d]. *)
Definition async_update_entry (e : ConfigEntry) (d : gmap string pyobj) : M unit :=
  fun w => (Ok tt, with_entry_data d w).

(** [self.config_entry.data] *)
Definition config_entry_data (e : ConfigEntry) : M (gmap string pyobj) :=
  fun w => (Ok (entry_data w), w).

(** ** datetime and urllib.parse

    A naive [datetime] is represented by the number of microseconds since
    0001-01-01T00:00:00, which is how the standard library does its own
    arithmetic ([toordinal] and [timedelta]); the calendar fields are read
    back the way [date.fromordinal] does. *)

Definition _DI400Y : Z := 146097.
Definition _DI100Y : Z := 36524.
Definition _DI4Y : Z := 1461.

Definition _DAYS_IN_MONTH (month : Z) : Z :=
  match month with
  | 1 => 31 | 2 => 28 | 3 => 31 | 4 => 30 | 5 => 31 | 6 => 30
  | 7 => 31 | 8 => 31 | 9 => 30 | 10 => 31 | 11 => 30 | 12 => 31
  | _ => -1
  end.

Definition _DAYS_BEFORE_MONTH (month : Z) : Z :=
  match month with
  | 1 => 0 | 2 => 31 | 3 => 59 | 4 => 90 | 5 => 120 | 6 => 151
  | 7 => 181 | 8 => 212 | 9 => 243 | 10 => 273 | 11 => 304 | 12 => 334
  | _ => -1
  end.

Definition _days_before_year (year : Z) : Z :=
  let y := year - 1 in
  y * 365 + y / 4 - y / 100 + y / 400.

(** [_ord2ymd(n)]: ordinal (0001-01-01 is day 1) to (year, month, day). *)
Definition _ord2ymd (n : Z) : Z * Z * Z :=
  let n := n - 1 in
  let n400 := n / _DI400Y in
  let n := n mod _DI400Y in
  let year := n400 * 400 + 1 in
  let n100 := n / _DI100Y in
  let n := n mod _DI100Y in
  let n4 := n / _DI4Y in
  let n := n mod _DI4Y in
  let n1 := n / 365 in
  let n := n mod 365 in
  let year := year + n100 * 100 + n4 * 4 + n1 in
  if (n1 =? 4)%Z || (n100 =? 4)%Z then (year - 1, 12, 31)
  else
    let leapyear := (n1 =? 3)%Z && (negb (n4 =? 24)%Z || (n100 =? 3)%Z) in
    let month := Z.shiftr (n + 50) 5 in
    let preceding :=
      _DAYS_BEFORE_MONTH month + (if (2 <? month)%Z && leapyear then 1 else 0) in
    if (n <? preceding)%Z then
      let month := month - 1 in
      let preceding :=
        preceding - (_DAYS_IN_MONTH month + (if (month =? 2)%Z && leapyear then 1 else 0)) in
      (year, month, n - preceding + 1)
    else (year, month, n - preceding + 1).

Definition US_PER_SECOND : Z := 1000000.
Definition US_PER_DAY : Z := 86400 * US_PER_SECOND.

Record datetime_fields : Type := {
  year : Z; month : Z; day : Z;
  hour : Z; minute : Z; second : Z; microsecond : Z
}.

Definition fields_of (t : Z) : datetime_fields :=
  let '(y, m, d) := _ord2ymd (t / US_PER_DAY + 1) in
  let r := t mod US_PER_DAY in
  {| year := y; month := m; day := d;
     hour := r / (3600 * US_PER_SECOND);
     minute := r / (60 * US_PER_SECOND) mod 60;
     second := r / US_PER_SECOND mod 60;
     microsecond := r mod US_PER_SECOND |}.

(** [timedelta(minutes=m)], in microseconds. *)
Definition timedelta_minutes (m : Z) : Z := m * 60 * US_PER_SECOND.

(** [t - delta]; a result before year 1 is out of range
    (the upper end cannot be reached by subtracting five minutes). *)
Definition datetime_sub (t delta : Z) : result Z :=
  if (t - delta <? 0)%Z then Raise (OverflowError "date value out of range")
  else Ok (t - delta).

Definition digit (n : Z) : ascii := ascii_of_nat (48 + Z.to_nat (n mod 10)).

(** [n] in decimal, zero-filled to [width] digits (the conversions
    [%m %d %H %M %S %f], whose argument always fits). *)
Fixpoint zfill (width : nat) (n : Z) : string :=
  match width with
  | O => ""
  | S k => zfill k (n / 10) +:+ String (digit n) ""
  end.

(** [t.strftime("%Y-%m-%dT%H:%M:%S.%f")]; [%Y] is the plain decimal year,
    four digits from year 1000 on. *)
Definition strftime_iso_us (t : Z) : string :=
  let f := fields_of t in
  str_int (year f) +:+ "-" +:+ zfill 2 (month f) +:+ "-" +:+ zfill 2 (day f)
  +:+ "T" +:+ zfill 2 (hour f) +:+ ":" +:+ zfill 2 (minute f) +:+ ":"
  +:+ zfill 2 (second f) +:+ "." +:+ zfill 6 (microsecond f).

(** [s[:-3]] *)
Definition drop_last3 (s : string) : string :=
  substring 0 (String.length s - 3) s.

Definition is_unreserved (c : ascii) : bool :=
  let n := nat_of_ascii c in
  ((65 <=? n) && (n <=? 90) || (97 <=? n) && (n <=? 122)
   || (48 <=? n) && (n <=? 57))%nat
  || Ascii.eqb c "_" || Ascii.eqb c "." || Ascii.eqb c "-" || Ascii.eqb c "~".

Definition hex_digit (n : nat) : ascii :=
  match get n "0123456789ABCDEF" with
  | Some c => c
  | None => "0"%char
  end.

(** [urllib.parse.quote(s)], with its default [safe="/"]; a string is its
    UTF-8 bytes. *)
Fixpoint quote (s : string) : string :=
  match s with
  | EmptyString => ""
  | String c s' =>
      (if is_unreserved c || Ascii.eqb c "/" then String c ""
       else String "%" (String (hex_digit (nat_of_ascii c / 16))
                          (String (hex_digit (nat_of_ascii c mod 16)) "")))
      +:+ quote s'
  end.

(** ** api.py *)

Definition set_config_entry (e : ConfigEntry) : M unit :=
  c ← get_self;
  put_self {| access_token := access_token c; refresh_token := refresh_token c;
              expires_in := expires_in c; config_entry := Some e;
              token_created_at := token_created_at c;
              last_token_refresh := last_token_refresh c |}.

Definition _is_token_expired : M bool :=
  c ← get_self;
  if negb (truthy (access_token c)) || negb (truthy (expires_in c)) then mret true
  else
    expiry ← lift (float_add (token_created_at c) (expires_in c));
    now ← time_time;
    let time_until_expiry := (expiry - now)%Q in
    mret (Qlt_bool time_until_expiry 300).

Definition _update_tokens_in_config_entry (new_tokens : pyobj) : M unit :=
  c ← get_self;
  match config_entry c with
  | None => _LOGGER WARNING "No config entry set, cannot update tokens" []
  | Some entry =>
      data ← config_entry_data entry;
      a ← lift (py_get new_tokens "access_token" PyNone);
      r ← lift (py_get new_tokens "refresh_token" PyNone);
      e ← lift (py_get new_tokens "expires_in" PyNone);
      let updated_data :=
        <[CONF_EXPIRES_IN := e]> (<[CONF_REFRESH_TOKEN := r]> (<[CONF_ACCESS_TOKEN := a]> data)) in
      a' ← lift (py_get new_tokens "access_token" PyNone);
      set_access_token a';;
      r' ← lift (py_get new_tokens "refresh_token" PyNone);
      set_refresh_token r';;
      e' ← lift (py_get new_tokens "expires_in" PyNone);
      set_expires_in e';;
      t ← time_time;
      set_token_created_at t;;
      t' ← time_time;
      set_last_token_refresh t';;
      async_update_entry entry updated_data;;
      _LOGGER DEBUG "Updated tokens in config entry" []
  end.

Definition authenticate (username password : string) : M pyobj :=
  let auth_data := PyDict (<["method" := PyStr "login"]>
                           (<["username" := PyStr username]>
                            {["password" := PyStr password]})) in
  response ← session_post AUTH_URL auth_data;
  if (status response =? 200)%Z then
    tokens ← response_json response;
    t ← time_time;
    set_token_created_at t;;
    t' ← time_time;
    set_last_token_refresh t';;
    mret tokens
  else
    raise (ClientResponseError AUTH_URL (status response)
             ("Authentication failed: " +:+ str_int (status response))).

Definition refresh_access_token : M pyobj :=
  c ← get_self;
  if negb (truthy (refresh_token c)) then raise (ValueError "No refresh token available")
  else
    let refresh_data := PyDict (<["method" := PyStr "refresh"]>
                                {["refresh_token" := refresh_token c]}) in
    _LOGGER DEBUG "Refreshing access token" [];;
    response ← session_post AUTH_URL refresh_data;
    if (status response =? 200)%Z then
      new_tokens ← response_json response;
      _LOGGER DEBUG "Token refresh successful" [];;
      _update_tokens_in_config_entry new_tokens;;
      mret new_tokens
    else
      let response_text := text response in
      _LOGGER ERROR "Token refresh failed with status %s: %s"
        [LogInt (status response); LogStr response_text];;
      raise (ClientResponseError AUTH_URL (status response)
               ("Token refresh failed: " +:+ str_int (status response))).

Definition _ensure_valid_token : M unit :=
  c ← get_self;
  if negb (truthy (access_token c)) then raise (ValueError "No access token available")
  else
    expired ← _is_token_expired;
    if (expired : bool) then
      _LOGGER DEBUG "Token expired or expiring soon, refreshing" [];;
      try_except (refresh_access_token;; mret tt)
        (fun ex => _LOGGER ERROR "Failed to refresh access token: %s" [LogExn ex];;
                   raise ex)
    else mret tt.

Definition get_initialisation_data : M pyobj :=
  _ensure_valid_token;;
  c ← get_self;
  let url := "https://api.n2g-iona.net/v2/initialisation" in
  response ← session_get url (access_token c);
  if (status response =? 200)%Z then response_json response
  else if (status response =? 401)%Z then
    _LOGGER DEBUG "Received 401, attempting token refresh" [];;
    _ensure_valid_token;;
    c' ← get_self;
    retry_response ← session_get url (access_token c');
    if (status retry_response =? 200)%Z then response_json retry_response
    else
      raise (ClientResponseError url (status retry_response)
               ("Failed to get initialisation data after token refresh: "
                +:+ str_int (status retry_response)))
  else
    raise (ClientResponseError url (status response)
             ("Failed to get initialisation data: " +:+ str_int (status response))).

(** The block that [get_current_power] applies to the decoded body of a
    200 response; the source has it twice, once for the first response and
    once for the retry. *)
Definition latest_power_reading (data : pyobj) : result pyobj :=
  st ← py_get data "status" PyNone;
  cond ← (if py_eq_str st "ok" then
            d ← py_get data "data" (PyDict ∅);
            r ← py_get d "results" PyNone;
            mret (truthy r)
          else mret false);
  if (cond : bool) then
    d ← py_getitem data "data";
    results ← py_getitem d "results";
    if truthy results then
      latest ← py_getitem_last results;
      p ← py_get latest "power" (PyInt 0);
      t ← py_get latest "timestamp" (PyStr "");
      mret (PyDict (<["power" := p]> (<["timestamp" := t]> {["unit" := PyStr "W"]})))
    else Raise (ValueError "No power data available")
  else Raise (ValueError "Invalid response format").

Definition get_current_power : M pyobj :=
  _ensure_valid_token;;
  c ← get_self;
  now ← datetime_utcnow;
  let end_time := now in
  start_time ← lift (datetime_sub now (timedelta_minutes 5));
  let start_str := drop_last3 (strftime_iso_us start_time) +:+ "Z" in
  let end_str := drop_last3 (strftime_iso_us end_time) +:+ "Z" in
  let url := "https://api.n2g-iona.net/v2/power/" +:+ quote start_str +:+ "/"
             +:+ quote end_str +:+ "/" in
  response ← session_get url (access_token c);
  if (status response =? 200)%Z then
    data ← response_json response;
    lift (latest_power_reading data)
  else if (status response =? 401)%Z then
    _LOGGER DEBUG "Received 401, attempting token refresh" [];;
    _ensure_valid_token;;
    c' ← get_self;
    retry_response ← session_get url (access_token c');
    if (status retry_response =? 200)%Z then
      data ← response_json retry_response;
      lift (latest_power_reading data)
    else
      raise (ClientResponseError url (status retry_response)
               ("Failed to get power data after token refresh: "
                +:+ str_int (status retry_response)))
  else
    raise (ClientResponseError url (status response)
             ("Failed to get power data: " +:+ str_int (status response))).

Definition get_meter_info : M pyobj :=
  _ensure_valid_token;;
  c ← get_self;
  let url := "https://api.n2g-iona.net/v2/meter/info" in
  response ← session_get url (access_token c);
  if (status response =? 200)%Z then response_json response
  else if (status response =? 401)%Z then
    _LOGGER DEBUG "Received 401 on meter info, attempting token refresh" [];;
    _ensure_valid_token;;
    c' ← get_self;
    retry_response ← session_get url (access_token c');
    if (status retry_response =? 200)%Z then response_json retry_response
    else
      raise (ClientResponseError url (status retry_response)
               ("Failed to get meter info after token refresh: "
                +:+ str_int (status retry_response)))
  else
    raise (ClientResponseError url (status response)
             ("Failed to get meter info: " +:+ str_int (status response))).

(** The three read operations. *)
Inductive read_operation : Type :=
| GetInitialisationData
| GetCurrentPower
| GetMeterInfo.

Definition run (op : read_operation) : M pyobj :=
  match op with
  | GetInitialisationData => get_initialisation_data
  | GetCurrentPower => get_current_power
  | GetMeterInfo => get_meter_info
  end.

(** [IONAEnergyAPI.__init__(hass, config_data)]: the instance it sets up
    takes the place of [self]. *)
Definition __init__ (config_data : gmap string pyobj) : M unit :=
  let a := default PyNone (config_data !! CONF_ACCESS_TOKEN) in
  let r := default PyNone (config_data !! CONF_REFRESH_TOKEN) in
  let e := default PyNone (config_data !! CONF_EXPIRES_IN) in
  t ← time_time;
  t' ← time_time;
  put_self {| access_token := a; refresh_token := r; expires_in := e;
              config_entry := None;
              token_created_at := t; last_token_refresh := t' |}.

(** ** __init__.py *)

Section Host.

(** [hass.config_entries.async_forward_entry_setups(entry, _PLATFORMS)],
    the host's part of the set-up. *)
Variable async_forward_entry_setups : M unit.

(** [async_setup_entry(hass, entry)]; [entry.runtime_data] is the client
    of the world. *)
Definition async_setup_entry : M bool :=
  data ← config_entry_data the_config_entry;
  __init__ data;;
  set_config_entry the_config_entry;;
  async_forward_entry_setups;;
  mret true.

End Host.

(** ** sensor/sensor.py *)

Inductive sensor_log_arg : Type :=
| SLogObj (o : pyobj)
| SLogExn (e : exn).

Record sensor_log_record : Type := {
  slog_lvl : log_level;
  slog_fmt : string;
  slog_args : list sensor_log_arg
}.

(** The attributes an entity's [async_update] assigns, and the records it
    hands to the logger of [sensor.py], oldest first. *)
Record SensorEntity : Type := {
  _attr_native_value : pyobj;
  _attr_available : bool;
  sensor_logged : list sensor_log_record
}.

Definition sensor_update (v : pyobj) (a : bool) (lvl : log_level) (fmt : string)
    (args : list sensor_log_arg) (s : SensorEntity) : SensorEntity :=
  {| _attr_native_value := v; _attr_available := a;
     sensor_logged := sensor_logged s
                      ++ [{| slog_lvl := lvl; slog_fmt := fmt; slog_args := args |}] |}.

(** [key in o] for a string [key]. *)
Definition py_in (key : string) (o : pyobj) : result bool :=
  match o with
  | PyDict d => Ok (bool_decide (is_Some (d !! key)))
  | PyList l => Ok (existsb (fun x => py_eq_str x key) l)
  | PyStr s => Ok (bool_decide (is_Some (index 0 key s)))
  | _ => Raise (TypeError "argument is not iterable")
  end.

Module IONAEnergyConnectionSensor.

(** The attributes [__init__] assigns. *)
Definition __init__ : SensorEntity :=
  {| _attr_native_value := PyStr "Unknown"; _attr_available := false;
     sensor_logged := [] |}.

Definition async_update (s : SensorEntity) (w : world) : SensorEntity * world :=
  match get_initialisation_data w with
  | (Ok _, w') =>
      (sensor_update (PyStr "Connected") true
         DEBUG "iONA Energy connection status: Connected" [] s, w')
  | (Raise ex, w') =>
      (sensor_update (PyStr "Disconnected") false
         ERROR "Error updating iONA Energy connection sensor: %s" [SLogExn ex] s, w')
  end.

End IONAEnergyConnectionSensor.

Module IONAEnergyPowerSensor.

Definition __init__ : SensorEntity :=
  {| _attr_native_value := PyNone; _attr_available := false;
     sensor_logged := [] |}.

(** The [try] block after the call has returned [power_data]. *)
Definition on_power_data (power_data : pyobj) (s : SensorEntity) : result SensorEntity :=
  has_power ← (if truthy power_data then py_in "power" power_data else mret false);
  if (has_power : bool) then
    v ← py_getitem power_data "power";
    v' ← py_getitem power_data "power";
    t ← py_get power_data "timestamp" (PyStr "unknown");
    mret (sensor_update v true
            DEBUG "iONA Energy current power: %s W (timestamp: %s)"
            [SLogObj v'; SLogObj t] s)
  else
    mret (sensor_update PyNone false WARNING "No power data available" [] s).

Definition on_exception (ex : exn) (s : SensorEntity) : SensorEntity :=
  sensor_update PyNone false
    ERROR "Error updating iONA Energy power sensor: %s" [SLogExn ex] s.

Definition async_update (s : SensorEntity) (w : world) : SensorEntity * world :=
  match get_current_power w with
  | (Ok power_data, w') =>
      match on_power_data power_data s with
      | Ok s' => (s', w')
      | Raise ex => (on_exception ex s, w')
      end
  | (Raise ex, w') => (on_exception ex s, w')
  end.

End IONAEnergyPowerSensor.

(** ** Concrete worlds used by the examples below *)

(** A client set up from a stored entry: token issued at time 1000, valid
    for an hour. *)
Definition example_client : IONAEnergyAPI :=
  {| access_token := PyStr "tok"; refresh_token := PyStr "ref";
     expires_in := PyInt 3600; config_entry := Some the_config_entry;
     token_created_at := 1000; last_token_refresh := 1000 |}.

Definition example_entry_data : gmap string pyobj :=
  <["username" := PyStr "user"]> (<["password" := PyStr "secret"]>
  (<["access_token" := PyStr "tok"]> (<["refresh_token" := PyStr "ref"]>
  {["expires_in" := PyInt 3600]}))).

(** A clock that starts at [start] and advances by a microsecond at every
    reading. *)
Definition example_clock (start : Q) (n : nat) : Q :=
  ((Z.of_nat n # 1000000) + start)%Q.

(** 2024-01-31T23:58:20.123456 *)
Definition example_utcnow : Z := 63842342300123456.

Definition example_world (c : IONAEnergyAPI) (start : Q) (auth api : list outcome) : world :=
  {| self := c; entry_data := example_entry_data;
     clock := example_clock start; ticks := 0; utcnow := example_utcnow;
     auth_server := auth; api_server := api; sent := []; logged := [] |}.

Definition reply (st : Z) (body : string) (o : option pyobj) : outcome :=
  Responds {| status := st; text := body; json := o |}.

(** ** Vocabulary of the statements

    Worlds reached along the way, requests as they appear on the wire,
    and the predicates the theorems are stated with. *)

(** [R] holds between the world before and the world after [m]. *)
Definition respects (R : world -> world -> Prop) {A : Type} (m : M A) : Prop :=
  forall w, R w (snd (m w)).

Definition log_line (lvl : log_level) (fmt : string) (args : list log_arg) (w : world) : world :=
  with_logged (logged w ++ [{| log_lvl := lvl; log_fmt := fmt; log_args := args |}]) w.

Definition refresh_request (c : IONAEnergyAPI) : request :=
  {| req_method := POST; req_url := AUTH_URL; req_bearer := None;
     req_json := Some (PyDict (<["method" := PyStr "refresh"]>
                               {["refresh_token" := refresh_token c]})) |}.

(** The world in which the answer to a refresh request is looked at: the
    request is on the wire and its answer is off the server's queue. *)
Definition after_refresh_post (rest : list outcome) (w : world) : world :=
  with_auth_server rest
    (with_sent (sent w ++ [refresh_request (self w)])
       (log_line DEBUG "Refreshing access token" [] w)).

(** The client after [_update_tokens_in_config_entry(new_tokens)] with an
    entry set, and the record it hands to the host. *)
Definition refreshed_client (new_tokens : gmap string pyobj) (t t' : Q)
    (c : IONAEnergyAPI) : IONAEnergyAPI :=
  {| access_token := default PyNone (new_tokens !! "access_token");
     refresh_token := default PyNone (new_tokens !! "refresh_token");
     expires_in := default PyNone (new_tokens !! "expires_in");
     config_entry := config_entry c;
     token_created_at := t; last_token_refresh := t' |}.

Definition merged_entry_data (new_tokens data : gmap string pyobj) : gmap string pyobj :=
  <[CONF_EXPIRES_IN := default PyNone (new_tokens !! "expires_in")]>
    (<[CONF_REFRESH_TOKEN := default PyNone (new_tokens !! "refresh_token")]>
       (<[CONF_ACCESS_TOKEN := default PyNone (new_tokens !! "access_token")]> data)).

Definition example_tokens : gmap string pyobj :=
  <["access_token" := PyStr "tok2"]> (<["refresh_token" := PyStr "ref2"]>
  {["expires_in" := PyInt 7200]}).

(** A client on which [set_config_entry] was never called. *)
Definition example_client_no_entry : IONAEnergyAPI :=
  {| access_token := PyStr "tok"; refresh_token := PyStr "ref";
     expires_in := PyInt 3600; config_entry := None;
     token_created_at := 1000; last_token_refresh := 1000 |}.

Definition login_request (username password : string) : request :=
  {| req_method := POST; req_url := AUTH_URL; req_bearer := None;
     req_json := Some (PyDict (<["method" := PyStr "login"]>
                               (<["username" := PyStr username]>
                                {["password" := PyStr password]}))) |}.

Definition stamp (t t' : Q) (c : IONAEnergyAPI) : IONAEnergyAPI :=
  {| access_token := access_token c; refresh_token := refresh_token c;
     expires_in := expires_in c; config_entry := config_entry c;
     token_created_at := t; last_token_refresh := t' |}.

Definition power_reading (p t : pyobj) : pyobj :=
  PyDict (<["power" := p]> (<["timestamp" := t]> {["unit" := PyStr "W"]})).

(** The token passes the local check at the reading [now] of the clock. *)
Definition locally_valid (c : IONAEnergyAPI) (E : Z) (now : Q) : Prop :=
  truthy (access_token c) = true
  /\ expires_in c = PyInt E
  /\ E <> 0
  /\ (now <= token_created_at c + inject_Z E - 300)%Q.

Definition get_request (url : string) (token : pyobj) : request :=
  {| req_method := GET; req_url := url; req_bearer := Some token; req_json := None |}.

(** The URL that [get_current_power] builds at the instant [t]. *)
Definition power_url (t : Z) : string :=
  "https://api.n2g-iona.net/v2/power/"
  +:+ quote (drop_last3 (strftime_iso_us (t - timedelta_minutes 5)) +:+ "Z") +:+ "/"
  +:+ quote (drop_last3 (strftime_iso_us t) +:+ "Z") +:+ "/".

Definition url_of (op : read_operation) (w : world) : string :=
  match op with
  | GetInitialisationData => "https://api.n2g-iona.net/v2/initialisation"
  | GetCurrentPower => power_url (utcnow w)
  | GetMeterInfo => "https://api.n2g-iona.net/v2/meter/info"
  end.

(** What an operation makes of the decoded body of a 200 response. *)
Definition payload_of (op : read_operation) (data : pyobj) : result pyobj :=
  match op with
  | GetCurrentPower => latest_power_reading data
  | _ => Ok data
  end.

Definition example_payload : pyobj :=
  PyDict {["status" := PyStr "ok"]}.

(** The clock, the instant [utcnow] and the API host's queue are out of
    reach of the token management. *)
Definition frame (w w' : world) : Prop :=
  utcnow w' = utcnow w /\ clock w' = clock w /\ api_server w' = api_server w.

(** The token management sends nothing but POST requests. *)
Definition posts_more (w w' : world) : Prop :=
  exists l, sent w' = (sent w ++ l)%list /\ Forall (fun r => req_method r = POST) l.

(** The world right after a GET: request on the wire, answer off the API
    host's queue. *)
Definition after_get (url : string) (rest : list outcome) (w : world) : world :=
  with_api_server rest
    (with_sent (sent w ++ [get_request url (access_token (self w))]) w).

(** The [get_current_power] call started in [w] receives a 200 response
    whose body decodes to [data]: at once, or on the retry that follows a
    401. *)
Inductive receives_200 (w : world) (data : pyobj) : Prop :=
| receives_first (w1 : world) (r : ClientResponse) (rest : list outcome) :
    _ensure_valid_token w = (Ok tt, w1) ->
    api_server w1 = Responds r :: rest ->
    status r = 200 ->
    json r = Some data ->
    receives_200 w data
| receives_retry (w1 w2 : world) (r1 r2 : ClientResponse) (rest rest' : list outcome) :
    _ensure_valid_token w = (Ok tt, w1) ->
    api_server w1 = Responds r1 :: rest ->
    status r1 = 401 ->
    _ensure_valid_token
      (log_line DEBUG "Received 401, attempting token refresh" []
         (after_get (power_url (utcnow w)) rest w1)) = (Ok tt, w2) ->
    api_server w2 = Responds r2 :: rest' ->
    status r2 = 200 ->
    json r2 = Some data ->
    receives_200 w data.

Definition example_results : list pyobj :=
  [PyDict (<["power" := PyInt 100]> {["timestamp" := PyStr "t1"]});
   PyDict (<["power" := PyInt 150]> {["timestamp" := PyStr "t2"]})].

Definition power_body (results : pyobj) : pyobj :=
  PyDict (<["status" := PyStr "ok"]>
          {["data" := PyDict {["results" := results]}]}).

Definition retry_failure_message (op : read_operation) : string :=
  match op with
  | GetInitialisationData => "Failed to get initialisation data after token refresh: "
  | GetCurrentPower => "Failed to get power data after token refresh: "
  | GetMeterInfo => "Failed to get meter info after token refresh: "
  end.

(** The timestamp format of the specification: ISO-8601 in UTC with
    millisecond precision and a literal trailing [Z],
    [YYYY-MM-DDTHH:MM:SS.mmmZ]. *)
Definition iso8601_ms (f : datetime_fields) : string :=
  zfill 4 (year f) +:+ "-" +:+ zfill 2 (month f) +:+ "-" +:+ zfill 2 (day f)
  +:+ "T" +:+ zfill 2 (hour f) +:+ ":" +:+ zfill 2 (minute f) +:+ ":"
  +:+ zfill 2 (second f) +:+ "." +:+ zfill 3 (microsecond f / 1000) +:+ "Z".

(** The same timestamp as a URL path segment: the colons are
    percent-encoded, every other character stands for itself. *)
Definition iso8601_ms_path (f : datetime_fields) : string :=
  zfill 4 (year f) +:+ "-" +:+ zfill 2 (month f) +:+ "-" +:+ zfill 2 (day f)
  +:+ "T" +:+ zfill 2 (hour f) +:+ "%3A" +:+ zfill 2 (minute f) +:+ "%3A"
  +:+ zfill 2 (second f) +:+ "." +:+ zfill 3 (microsecond f / 1000) +:+ "Z".

(** The first instant of year 1000 and the first instant after year 9999. *)
Definition YEAR_1000 : Z := _days_before_year 1000 * US_PER_DAY.
Definition YEAR_10000 : Z := _days_before_year 10000 * US_PER_DAY.

Definition gets_go_to (url : string) (l : list request) : Prop :=
  Forall (fun r => req_method r = GET -> req_url r = url) l.

(** *** The common shape of the three read operations

    Token check, GET, and on a 401 one more token check and one more GET. *)

Definition build_url (op : read_operation) : M string :=
  match op with
  | GetInitialisationData => mret "https://api.n2g-iona.net/v2/initialisation"
  | GetCurrentPower =>
      now ← datetime_utcnow;
      start_time ← lift (datetime_sub now (timedelta_minutes 5));
      mret ("https://api.n2g-iona.net/v2/power/"
            +:+ quote (drop_last3 (strftime_iso_us start_time) +:+ "Z") +:+ "/"
            +:+ quote (drop_last3 (strftime_iso_us now) +:+ "Z") +:+ "/")
  | GetMeterInfo => mret "https://api.n2g-iona.net/v2/meter/info"
  end.

Definition log_401 (op : read_operation) : string :=
  match op with
  | GetMeterInfo => "Received 401 on meter info, attempting token refresh"
  | _ => "Received 401, attempting token refresh"
  end.

Definition failure_message (op : read_operation) : string :=
  match op with
  | GetInitialisationData => "Failed to get initialisation data: "
  | GetCurrentPower => "Failed to get power data: "
  | GetMeterInfo => "Failed to get meter info: "
  end.

(** What an operation makes of a response whose status is 200. *)
Definition on_200 (op : read_operation) (r : ClientResponse) : M pyobj :=
  data ← response_json r;
  lift (payload_of op data).

Definition status_error (url : string) (msg : string) (r : ClientResponse) : exn :=
  ClientResponseError url (status r) (msg +:+ str_int (status r)).

Definition retry_after_401 (op : read_operation) (url : string) : M pyobj :=
  _LOGGER DEBUG (log_401 op) [];;
  _ensure_valid_token;;
  c' ← get_self;
  retry_response ← session_get url (access_token c');
  if (status retry_response =? 200)%Z then on_200 op retry_response
  else raise (status_error url (retry_failure_message op) retry_response).

Definition after_token_check (op : read_operation) : M pyobj :=
  c ← get_self;
  url ← build_url op;
  response ← session_get url (access_token c);
  if (status response =? 200)%Z then on_200 op response
  else if (status response =? 401)%Z then retry_after_401 op url
  else raise (status_error url (failure_message op) response).

Definition request_with_retry (op : read_operation) : M pyobj :=
  _ensure_valid_token;;
  after_token_check op.

(** The token fails the local check at the reading [now] of the clock. *)
Definition locally_expired (c : IONAEnergyAPI) (E : Z) (now : Q) : Prop :=
  truthy (access_token c) = true
  /\ expires_in c = PyInt E
  /\ E <> 0
  /\ (token_created_at c + inject_Z E - 300 < now)%Q.

Definition is_get (r : request) : bool :=
  match req_method r with
  | GET => true
  | POST => false
  end.

(** The GET requests and the POST requests of a list. *)
Definition gets (l : list request) : list request := List.filter is_get l.
Definition posts (l : list request) : list request :=
  List.filter (fun r => negb (is_get r)) l.

Definition example_client_no_token : IONAEnergyAPI :=
  {| access_token := PyNone; refresh_token := PyStr "ref";
     expires_in := PyInt 3600; config_entry := Some the_config_entry;
     token_created_at := 1000; last_token_refresh := 1000 |}.

(** The world in which [refresh_access_token] starts when the token check
    has found the token expired. *)
Definition before_refresh (w : world) : world :=
  log_line DEBUG "Token expired or expiring soon, refreshing" []
    (with_ticks (S (ticks w)) w).

(** At most [g] GETs, all to [url], and at most [p] POSTs, all to the
    authentication URL. *)
Definition traffic_within (g p : nat) (url : string) (l : list request) : Prop :=
  (length (gets l) <= g)%nat
  /\ (length (posts l) <= p)%nat
  /\ Forall (fun r => if is_get r then req_url r = url else req_url r = AUTH_URL) l.

Definition example_tokens_no_access : gmap string pyobj :=
  <["refresh_token" := PyStr "ref2"]> {["expires_in" := PyInt 7200]}.


(** The part of [async_setup_entry] that precedes the host's platform
    set-up. *)
Definition client_setup : M unit :=
  data ← config_entry_data the_config_entry;
  __init__ data;;
  set_config_entry the_config_entry.

(** The client that [client_setup] leaves, and the world it leaves. *)
Definition set_up_client (w : world) : IONAEnergyAPI :=
  {| access_token := default PyNone (entry_data w !! CONF_ACCESS_TOKEN);
     refresh_token := default PyNone (entry_data w !! CONF_REFRESH_TOKEN);
     expires_in := default PyNone (entry_data w !! CONF_EXPIRES_IN);
     config_entry := Some the_config_entry;
     token_created_at := clock w (ticks w);
     last_token_refresh := clock w (S (ticks w)) |}.

Definition set_up_world (w : world) : world :=
  with_self (set_up_client w) (with_ticks (S (S (ticks w))) w).

(** A host whose platform set-up does nothing. *)
Definition no_platforms : M unit := mret tt.

(** How [async_setup_entry] ends once the host's part has run. *)
Definition finish_setup (x : result unit * world) : result bool * world :=
  match x with
  | (Ok _, w') => (Ok true, w')
  | (Raise ex, w') => (Raise ex, w')
  end.

(** * Properties *)

(** ** The monad *)

Lemma bind_ok {A B : Type} (m : M A) (f : A -> M B) (w w' : world) (a : A) :
  m w = (Ok a, w') -> (m ≫= f) w = f a w'.
Proof. intros H. unfold mbind, M_bind. now rewrite H. Qed.

Lemma bind_raise {A B : Type} (m : M A) (f : A -> M B) (w w' : world) (e : exn) :
  m w = (Raise e, w') -> (m ≫= f) w = (Raise e, w').
Proof. intros H. unfold mbind, M_bind. now rewrite H. Qed.

Lemma pair_fst_snd {A B : Type} (p : A * B) (a : A) : fst p = a -> p = (a, snd p).
Proof. destruct p. cbn. now intros ->. Qed.

Lemma Qlt_bool_iff (x y : Q) : Qlt_bool x y = true <-> (x < y)%Q.
Proof. unfold Qlt_bool, Qlt. apply Z.ltb_lt. Qed.

Lemma Qlt_bool_false_iff (x y : Q) : Qlt_bool x y = false <-> (y <= x)%Q.
Proof. unfold Qlt_bool, Qle. rewrite Z.ltb_ge. reflexivity. Qed.

(** ** Token expiry *)


Lemma is_token_expired_int (w : world) (E : Z) :
  truthy (access_token (self w)) = true ->
  expires_in (self w) = PyInt E ->
  E <> 0 ->
  _is_token_expired w =
    (Ok (Qlt_bool (token_created_at (self w) + inject_Z E - clock w (ticks w)) 300),
     with_ticks (S (ticks w)) w).
Proof.
  intros Ha He HE. unfold _is_token_expired, get_self, mbind, M_bind.
  rewrite Ha, He. cbn.
  destruct (Z.eqb_spec E 0) as [?|_]; [contradiction|]. reflexivity.
Qed.

Lemma truthy_None : truthy PyNone = false.
Proof. reflexivity. Qed.

(** The token is reported expired at the reading [now] of the clock exactly
    when less than 300 seconds are left. *)
Lemma is_token_expired_iff (w : world) (E : Z) :
  truthy (access_token (self w)) = true ->
  expires_in (self w) = PyInt E ->
  E <> 0 ->
  forall b, fst (_is_token_expired w) = Ok b ->
  (b = true <-> (token_created_at (self w) + inject_Z E - 300 < clock w (ticks w))%Q).
Proof.
  intros Ha He HE b. rewrite (is_token_expired_int w E Ha He HE). cbn [fst].
  intros [= <-]. rewrite Qlt_bool_iff. split; intros H; lra.
Qed.




(** ** Preconditions of [_ensure_valid_token] and [refresh_access_token] *)

Lemma ensure_valid_token_no_token (w : world) :
  truthy (access_token (self w)) = false ->
  _ensure_valid_token w = (Raise (ValueError "No access token available"), w).
Proof.
  intros H. unfold _ensure_valid_token, get_self, mbind, M_bind. now rewrite H.
Qed.

Lemma ensure_valid_token_fresh (w w1 : world) :
  truthy (access_token (self w)) = true ->
  _is_token_expired w = (Ok false, w1) ->
  _ensure_valid_token w = (Ok tt, w1).
Proof.
  intros Ha He. unfold _ensure_valid_token, get_self, mbind, M_bind.
  rewrite Ha. cbn -[_is_token_expired]. now rewrite He.
Qed.

Lemma ensure_valid_token_check_raises (w w1 : world) (e : exn) :
  truthy (access_token (self w)) = true ->
  _is_token_expired w = (Raise e, w1) ->
  _ensure_valid_token w = (Raise e, w1).
Proof.
  intros Ha He. unfold _ensure_valid_token, get_self, mbind, M_bind.
  rewrite Ha. cbn -[_is_token_expired]. now rewrite He.
Qed.

Lemma ensure_valid_token_expired (w w1 : world) :
  truthy (access_token (self w)) = true ->
  _is_token_expired w = (Ok true, w1) ->
  _ensure_valid_token w =
    match refresh_access_token
            (log_line DEBUG "Token expired or expiring soon, refreshing" [] w1) with
    | (Ok _, w3) => (Ok tt, w3)
    | (Raise ex, w3) =>
        (Raise ex, log_line ERROR "Failed to refresh access token: %s" [LogExn ex] w3)
    end.
Proof.
  intros Ha He. unfold _ensure_valid_token, get_self, mbind, M_bind.
  rewrite Ha. cbn -[_is_token_expired]. rewrite He.
  cbn -[refresh_access_token]. unfold try_except, mbind, M_bind, log_line.
  destruct (refresh_access_token _) as [[o|ex] w3]; reflexivity.
Qed.

Lemma refresh_no_refresh_token (w : world) :
  truthy (refresh_token (self w)) = false ->
  refresh_access_token w = (Raise (ValueError "No refresh token available"), w).
Proof.
  intros H. unfold refresh_access_token, get_self, mbind, M_bind. now rewrite H.
Qed.



(** ** [refresh_access_token] *)

Lemma refresh_non_200 (w : world) (r : ClientResponse) (rest : list outcome) :
  truthy (refresh_token (self w)) = true ->
  auth_server w = Responds r :: rest ->
  status r <> 200 ->
  refresh_access_token w =
    (Raise (ClientResponseError AUTH_URL (status r)
              ("Token refresh failed: " +:+ str_int (status r))),
     log_line ERROR "Token refresh failed with status %s: %s"
       [LogInt (status r); LogStr (text r)] (after_refresh_post rest w)).
Proof.
  intros Ht Hq Hs.
  unfold refresh_access_token, get_self, session_post, _LOGGER, mbind, M_bind.
  rewrite Ht. cbn. rewrite Hq.
  destruct (Z.eqb_spec (status r) 200) as [?|_]; [contradiction|]. reflexivity.
Qed.

Lemma refresh_200_no_entry (w : world) (r : ClientResponse) (rest : list outcome)
    (o : pyobj) :
  config_entry (self w) = None ->
  truthy (refresh_token (self w)) = true ->
  auth_server w = Responds r :: rest ->
  status r = 200 ->
  json r = Some o ->
  refresh_access_token w =
    (Ok o, log_line WARNING "No config entry set, cannot update tokens" []
             (log_line DEBUG "Token refresh successful" [] (after_refresh_post rest w))).
Proof.
  intros Hc Ht Hq Hs Hj.
  unfold refresh_access_token, get_self, session_post, _LOGGER, mbind, M_bind.
  rewrite Ht. cbn. rewrite Hq, Hs. cbn. unfold response_json. rewrite Hj. cbn.
  unfold _update_tokens_in_config_entry, get_self, mbind, M_bind. cbn.
  rewrite Hc. reflexivity.
Qed.

Lemma update_tokens_with_entry (w : world) (e : ConfigEntry) (d : gmap string pyobj) :
  config_entry (self w) = Some e ->
  _update_tokens_in_config_entry (PyDict d) w =
    (Ok tt,
     log_line DEBUG "Updated tokens in config entry" []
       (with_entry_data (merged_entry_data d (entry_data w))
          (with_self (refreshed_client d (clock w (ticks w)) (clock w (S (ticks w))) (self w))
             (with_ticks (S (S (ticks w))) w)))).
Proof.
  intros Hc. unfold _update_tokens_in_config_entry, get_self, mbind, M_bind.
  rewrite Hc. reflexivity.
Qed.

Lemma update_tokens_not_dict (w : world) (e : ConfigEntry) (o : pyobj) :
  config_entry (self w) = Some e ->
  (forall d, o <> PyDict d) ->
  _update_tokens_in_config_entry o w = (Raise (AttributeError "get"), w).
Proof.
  intros Hc Ho. unfold _update_tokens_in_config_entry, get_self, mbind, M_bind.
  rewrite Hc. destruct o; try reflexivity. now destruct (Ho d).
Qed.

Lemma refresh_200_with_entry (w : world) (e : ConfigEntry) (r : ClientResponse)
    (rest : list outcome) (d : gmap string pyobj) :
  config_entry (self w) = Some e ->
  truthy (refresh_token (self w)) = true ->
  auth_server w = Responds r :: rest ->
  status r = 200 ->
  json r = Some (PyDict d) ->
  let w1 := log_line DEBUG "Token refresh successful" [] (after_refresh_post rest w) in
  refresh_access_token w =
    (Ok (PyDict d),
     log_line DEBUG "Updated tokens in config entry" []
       (with_entry_data (merged_entry_data d (entry_data w))
          (with_self (refreshed_client d (clock w (ticks w)) (clock w (S (ticks w))) (self w))
             (with_ticks (S (S (ticks w))) w1)))).
Proof.
  intros Hc Ht Hq Hs Hj w1.
  unfold refresh_access_token, get_self, session_post, _LOGGER, mbind, M_bind.
  rewrite Ht. cbn -[_update_tokens_in_config_entry]. rewrite Hq, Hs.
  cbn -[_update_tokens_in_config_entry]. unfold response_json. rewrite Hj.
  cbn -[_update_tokens_in_config_entry].
  erewrite update_tokens_with_entry by exact Hc. reflexivity.
Qed.

(** A successful refresh comes from a 200 answer whose body decodes to an
    object; with an entry set, that object is a [dict]. *)
Lemma refresh_success_inv (w w' : world) (e : ConfigEntry) (o : pyobj) :
  config_entry (self w) = Some e ->
  refresh_access_token w = (Ok o, w') ->
  exists r rest d,
    truthy (refresh_token (self w)) = true
    /\ auth_server w = Responds r :: rest
    /\ status r = 200
    /\ json r = Some (PyDict d)
    /\ o = PyDict d.
Proof.
  intros Hc H.
  destruct (truthy (refresh_token (self w))) eqn:Ht;
    [|rewrite refresh_no_refresh_token in H by exact Ht; discriminate].
  destruct (auth_server w) as [|[r|ex] rest] eqn:Hq.
  - revert H. unfold refresh_access_token, get_self, session_post, _LOGGER, mbind, M_bind.
    rewrite Ht. cbn. rewrite Hq. discriminate.
  - destruct (Z.eq_dec (status r) 200) as [Hs|Hs];
      [|rewrite (refresh_non_200 w r rest Ht Hq Hs) in H; discriminate].
    destruct (json r) as [o'|] eqn:Hj.
    + destruct o' as [| | | | | |d];
        try (revert H;
             unfold refresh_access_token, get_self, session_post, _LOGGER, mbind, M_bind;
             rewrite Ht; cbn -[_update_tokens_in_config_entry]; rewrite Hq, Hs;
             cbn -[_update_tokens_in_config_entry]; unfold response_json; rewrite Hj;
             cbn -[_update_tokens_in_config_entry];
             erewrite update_tokens_not_dict by (first [exact Hc | discriminate]);
             discriminate).
      rewrite (refresh_200_with_entry w e r rest d Hc Ht Hq Hs Hj) in H.
      injection H as <- _. exists r, rest, d. repeat split; assumption || reflexivity.
    + revert H. unfold refresh_access_token, get_self, session_post, _LOGGER, mbind, M_bind.
      rewrite Ht. cbn. rewrite Hq, Hs. cbn. unfold response_json. rewrite Hj. discriminate.
  - revert H. unfold refresh_access_token, get_self, session_post, _LOGGER, mbind, M_bind.
    rewrite Ht. cbn. rewrite Hq. discriminate.
Qed.

(** C4: after a successful [refresh_access_token] of a client that holds
    its configuration entry, the three token fields of the persisted record
    are the client's in-memory token fields, and every other field of the
    record is what it was before the call. *)
Theorem refresh_persists_tokens (w w' : world) (e : ConfigEntry) (o : pyobj) :
  config_entry (self w) = Some e ->
  refresh_access_token w = (Ok o, w') ->
  entry_data w' !! CONF_ACCESS_TOKEN = Some (access_token (self w'))
  /\ entry_data w' !! CONF_REFRESH_TOKEN = Some (refresh_token (self w'))
  /\ entry_data w' !! CONF_EXPIRES_IN = Some (expires_in (self w'))
  /\ (forall k : string,
        k <> CONF_ACCESS_TOKEN -> k <> CONF_REFRESH_TOKEN -> k <> CONF_EXPIRES_IN ->
        entry_data w' !! k = entry_data w !! k).
Proof.
  intros Hc H.
  destruct (refresh_success_inv w w' e o Hc H) as (r & rest & d & Ht & Hq & Hs & Hj & ->).
  rewrite (refresh_200_with_entry w e r rest d Hc Ht Hq Hs Hj) in H.
  injection H as <-. cbn. unfold merged_entry_data.
  repeat split.
  - rewrite lookup_insert_ne by discriminate.
    rewrite lookup_insert_ne by discriminate.
    apply lookup_insert_eq.
  - rewrite lookup_insert_ne by discriminate. apply lookup_insert_eq.
  - apply lookup_insert_eq.
  - intros k H1 H2 H3.
    unfold CONF_ACCESS_TOKEN, CONF_REFRESH_TOKEN, CONF_EXPIRES_IN in *.
    rewrite !lookup_insert_ne by congruence. reflexivity.
Qed.

Lemma refresh_persists_tokens_witness :
  let w := example_world example_client 5000
             [reply 200 "" (Some (PyDict example_tokens))] [] in
  let w' := snd (refresh_access_token w) in
  entry_data w' !! CONF_ACCESS_TOKEN = Some (access_token (self w'))
  /\ entry_data w' !! CONF_REFRESH_TOKEN = Some (refresh_token (self w'))
  /\ entry_data w' !! CONF_EXPIRES_IN = Some (expires_in (self w'))
  /\ (forall k : string,
        k <> CONF_ACCESS_TOKEN -> k <> CONF_REFRESH_TOKEN -> k <> CONF_EXPIRES_IN ->
        entry_data w' !! k = entry_data w !! k).
Proof.
  cbn zeta.
  apply (refresh_persists_tokens
           (example_world example_client 5000
              [reply 200 "" (Some (PyDict example_tokens))] [])
           _ the_config_entry (PyDict example_tokens)).
  - reflexivity.
  - apply pair_fst_snd. vm_compute. reflexivity.
Defined.

(** C5, the claim as stated fails on what the error carries: two refresh
    calls answered with status 500 and different bodies raise the very same
    exception, so the body cannot be read off the error.  (The body goes to
    the error log.) *)
Lemma refresh_error_forgets_body :
  let wa := example_world example_client 5000 [reply 500 "overloaded" None] [] in
  let wb := example_world example_client 5000 [reply 500 "maintenance" None] [] in
  fst (refresh_access_token wa) = fst (refresh_access_token wb)
  /\ ~ exists body_of : exn -> string,
         (forall e, fst (refresh_access_token wa) = Raise e -> body_of e = "overloaded")
         /\ (forall e, fst (refresh_access_token wb) = Raise e -> body_of e = "maintenance").
Proof.
  cbn zeta. split; [reflexivity|].
  intros (body_of & Ha & Hb).
  pose proof (Ha (ClientResponseError AUTH_URL 500 "Token refresh failed: 500") eq_refl) as Ea.
  pose proof (Hb (ClientResponseError AUTH_URL 500 "Token refresh failed: 500") eq_refl) as Eb.
  rewrite Ea in Eb. discriminate.
Qed.

(** C5 (amended): a [refresh_access_token] call that receives a response
    with a status other than 200 raises a [ClientResponseError] that carries
    the response status (message "Token refresh failed: <status>"); the
    response body is written to the error log together with the status, not
    carried by the error; the client (its access token, refresh token and
    [expires_in] in particular) and the persisted record are left as they
    were before the call. *)
Theorem refresh_failure_keeps_state (w : world) (r : ClientResponse) (rest : list outcome) :
  truthy (refresh_token (self w)) = true ->
  auth_server w = Responds r :: rest ->
  status r <> 200 ->
  exists w',
    refresh_access_token w =
      (Raise (ClientResponseError AUTH_URL (status r)
                ("Token refresh failed: " +:+ str_int (status r))), w')
    /\ access_token (self w') = access_token (self w)
    /\ refresh_token (self w') = refresh_token (self w)
    /\ expires_in (self w') = expires_in (self w)
    /\ self w' = self w
    /\ entry_data w' = entry_data w
    /\ last (logged w') =
         Some {| log_lvl := ERROR;
                 log_fmt := "Token refresh failed with status %s: %s";
                 log_args := [LogInt (status r); LogStr (text r)] |}.
Proof.
  intros Ht Hq Hs. eexists. split; [apply (refresh_non_200 w r rest Ht Hq Hs)|].
  cbn. repeat split; try reflexivity. apply last_snoc.
Qed.

Lemma refresh_failure_keeps_state_witness :
  let w := example_world example_client 5000 [reply 503 "overloaded" None] [] in
  exists w',
    refresh_access_token w =
      (Raise (ClientResponseError AUTH_URL 503 "Token refresh failed: 503"), w')
    /\ access_token (self w') = PyStr "tok"
    /\ refresh_token (self w') = PyStr "ref"
    /\ expires_in (self w') = PyInt 3600
    /\ self w' = self w
    /\ entry_data w' = entry_data w
    /\ last (logged w') =
         Some {| log_lvl := ERROR;
                 log_fmt := "Token refresh failed with status %s: %s";
                 log_args := [LogInt 503; LogStr "overloaded"] |}.
Proof.
  cbn zeta.
  apply (refresh_failure_keeps_state
           (example_world example_client 5000 [reply 503 "overloaded" None] [])
           {| status := 503; text := "overloaded"; json := None |} []).
  - reflexivity.
  - reflexivity.
  - cbn. lia.
Defined.

(** C9: with no configuration entry set, a [refresh_access_token] call that
    receives a 200 response returns the decoded token payload, and leaves
    the client (access token, refresh token, [expires_in],
    [token_created_at], [last_token_refresh]) and the persisted record as
    they were: the returned tokens are stored nowhere. *)
Theorem refresh_without_entry (w : world) (r : ClientResponse) (rest : list outcome)
    (o : pyobj) :
  config_entry (self w) = None ->
  truthy (refresh_token (self w)) = true ->
  auth_server w = Responds r :: rest ->
  status r = 200 ->
  json r = Some o ->
  exists w',
    refresh_access_token w = (Ok o, w')
    /\ access_token (self w') = access_token (self w)
    /\ refresh_token (self w') = refresh_token (self w)
    /\ expires_in (self w') = expires_in (self w)
    /\ token_created_at (self w') = token_created_at (self w)
    /\ last_token_refresh (self w') = last_token_refresh (self w)
    /\ entry_data w' = entry_data w
    /\ last (logged w') =
         Some {| log_lvl := WARNING;
                 log_fmt := "No config entry set, cannot update tokens";
                 log_args := [] |}.
Proof.
  intros Hc Ht Hq Hs Hj. eexists.
  split; [apply (refresh_200_no_entry w r rest o Hc Ht Hq Hs Hj)|].
  cbn. repeat split; try reflexivity. apply last_snoc.
Qed.

Lemma refresh_without_entry_witness :
  let w := example_world example_client_no_entry 5000
             [reply 200 "" (Some (PyDict example_tokens))] [] in
  exists w',
    refresh_access_token w = (Ok (PyDict example_tokens), w')
    /\ access_token (self w') = PyStr "tok"
    /\ refresh_token (self w') = PyStr "ref"
    /\ expires_in (self w') = PyInt 3600
    /\ token_created_at (self w') = 1000%Q
    /\ last_token_refresh (self w') = 1000%Q
    /\ entry_data w' = entry_data w
    /\ last (logged w') =
         Some {| log_lvl := WARNING;
                 log_fmt := "No config entry set, cannot update tokens";
                 log_args := [] |}.
Proof.
  cbn zeta.
  apply (refresh_without_entry
           (example_world example_client_no_entry 5000
              [reply 200 "" (Some (PyDict example_tokens))] [])
           {| status := 200; text := ""; json := Some (PyDict example_tokens) |} []
           (PyDict example_tokens)).
  - reflexivity.
  - reflexivity.
  - reflexivity.
  - reflexivity.
  - reflexivity.
Defined.

(** ** [authenticate] *)

Lemma authenticate_200 (w : world) (username password : string) (r : ClientResponse)
    (rest : list outcome) (o : pyobj) :
  auth_server w = Responds r :: rest ->
  status r = 200 ->
  json r = Some o ->
  authenticate username password w =
    (Ok o,
     with_self (stamp (clock w (ticks w)) (clock w (S (ticks w))) (self w))
       (with_ticks (S (S (ticks w)))
          (with_auth_server rest
             (with_sent (sent w ++ [login_request username password]) w)))).
Proof.
  intros Hq Hs Hj. unfold authenticate, session_post, mbind, M_bind.
  cbn. rewrite Hq, Hs. cbn. unfold response_json. rewrite Hj. reflexivity.
Qed.

(** C10, the claim as stated fails on the parenthesis: the two timestamps
    come from two successive readings of the clock, and differ as soon as
    the clock advances in between. *)
Lemma authenticate_timestamps_differ :
  let w := example_world example_client 5000
             [reply 200 "" (Some (PyDict example_tokens))] [] in
  let c' := self (snd (authenticate "user" "secret" w)) in
  fst (authenticate "user" "secret" w) = Ok (PyDict example_tokens)
  /\ ~ (token_created_at c' == last_token_refresh c')%Q.
Proof.
  cbn zeta. split; [vm_compute; reflexivity|].
  vm_compute. discriminate.
Qed.

(** C10 (amended): a successful [authenticate] (status 200) returns the
    decoded payload and changes only [token_created_at] and
    [last_token_refresh], each set to its own reading of the clock, one
    right after the other (the same value only if the clock did not advance
    in between); the client's access token, refresh token and [expires_in]
    stay as they were, and so does the persisted record, so the caller has
    to store the returned payload itself. *)
Theorem authenticate_only_stamps (w : world) (username password : string)
    (r : ClientResponse) (rest : list outcome) (o : pyobj) :
  auth_server w = Responds r :: rest ->
  status r = 200 ->
  json r = Some o ->
  exists w',
    authenticate username password w = (Ok o, w')
    /\ access_token (self w') = access_token (self w)
    /\ refresh_token (self w') = refresh_token (self w)
    /\ expires_in (self w') = expires_in (self w)
    /\ config_entry (self w') = config_entry (self w)
    /\ token_created_at (self w') = clock w (ticks w)
    /\ last_token_refresh (self w') = clock w (S (ticks w))
    /\ entry_data w' = entry_data w.
Proof.
  intros Hq Hs Hj. eexists.
  split; [apply (authenticate_200 w username password r rest o Hq Hs Hj)|].
  cbn. repeat split; reflexivity.
Qed.

Lemma authenticate_only_stamps_witness :
  let w := example_world example_client 5000
             [reply 200 "" (Some (PyDict example_tokens))] [] in
  exists w',
    authenticate "user" "secret" w = (Ok (PyDict example_tokens), w')
    /\ access_token (self w') = PyStr "tok"
    /\ refresh_token (self w') = PyStr "ref"
    /\ expires_in (self w') = PyInt 3600
    /\ config_entry (self w') = Some the_config_entry
    /\ token_created_at (self w') = example_clock 5000 0
    /\ last_token_refresh (self w') = example_clock 5000 1
    /\ entry_data w' = entry_data w.
Proof.
  cbn zeta.
  apply (authenticate_only_stamps
           (example_world example_client 5000
              [reply 200 "" (Some (PyDict example_tokens))] [])
           "user" "secret"
           {| status := 200; text := ""; json := Some (PyDict example_tokens) |} []
           (PyDict example_tokens)).
  - reflexivity.
  - reflexivity.
  - reflexivity.
Defined.

(** ** The power payload *)

Lemma last_Some_truthy (rs : list pyobj) (x : pyobj) :
  last rs = Some x -> truthy (PyList rs) = true.
Proof. destruct rs; [discriminate|reflexivity]. Qed.

Lemma latest_power_reading_ok (d dd ld : gmap string pyobj) (rs : list pyobj) :
  d !! "status" = Some (PyStr "ok") ->
  d !! "data" = Some (PyDict dd) ->
  dd !! "results" = Some (PyList rs) ->
  last rs = Some (PyDict ld) ->
  latest_power_reading (PyDict d) =
    Ok (power_reading (default (PyInt 0) (ld !! "power"))
                      (default (PyStr "") (ld !! "timestamp"))).
Proof.
  intros Hs Hd Hr Hl. unfold latest_power_reading, py_get, py_getitem, py_getitem_last.
  unfold mbind, result_bind, mret, result_ret.
  rewrite Hs, Hd. cbn -[truthy last]. rewrite Hr. cbn -[truthy last].
  rewrite (last_Some_truthy rs _ Hl), Hl. reflexivity.
Qed.

Lemma latest_power_reading_empty_results (d dd : gmap string pyobj) :
  d !! "status" = Some (PyStr "ok") ->
  d !! "data" = Some (PyDict dd) ->
  dd !! "results" = Some (PyList []) ->
  latest_power_reading (PyDict d) = Raise (ValueError "Invalid response format").
Proof.
  intros Hs Hd Hr. unfold latest_power_reading, py_get.
  unfold mbind, result_bind, mret, result_ret.
  rewrite Hs, Hd. cbn. rewrite Hr. reflexivity.
Qed.

Lemma latest_power_reading_missing_results (d dd : gmap string pyobj) :
  d !! "status" = Some (PyStr "ok") ->
  d !! "data" = Some (PyDict dd) ->
  dd !! "results" = None ->
  latest_power_reading (PyDict d) = Raise (ValueError "Invalid response format").
Proof.
  intros Hs Hd Hr. unfold latest_power_reading, py_get.
  unfold mbind, result_bind, mret, result_ret.
  rewrite Hs, Hd. cbn. rewrite Hr. reflexivity.
Qed.

(** The branch that raises "No power data available" is never taken: the
    guard before it has already required a truthy [results]. *)
Lemma latest_power_reading_never_no_data (data : pyobj) :
  latest_power_reading data <> Raise (ValueError "No power data available").
Proof.
  unfold latest_power_reading, py_get, py_getitem.
  unfold mbind, result_bind, mret, result_ret.
  destruct data as [| | | | | |d]; try discriminate.
  destruct (py_eq_str _ _); [|discriminate].
  destruct (d !! "data") as [[| | | | | |dd]|] eqn:Hd; cbn; try discriminate.
  destruct (dd !! "results") as [res|] eqn:Hr; cbn; [|discriminate].
  destruct (truthy res) eqn:Ht; [|discriminate].
  destruct (py_getitem_last res) as [latest|ex] eqn:Hl.
  - destruct latest; cbn; discriminate.
  - destruct res as [| | | | |l|]; cbn in Hl; try discriminate;
      try (injection Hl as <-; discriminate).
    + destruct (last_char s); [discriminate|]. injection Hl as <-. discriminate.
    + destruct (last l); [discriminate|]. injection Hl as <-. discriminate.
Qed.

(** ** The read operations *)

Lemma ensure_valid_token_locally_valid (w : world) (E : Z) :
  locally_valid (self w) E (clock w (ticks w)) ->
  _ensure_valid_token w = (Ok tt, with_ticks (S (ticks w)) w).
Proof.
  intros (Ha & He & HE & Hnow). apply ensure_valid_token_fresh; [exact Ha|].
  rewrite (is_token_expired_int w E Ha He HE). do 2 f_equal.
  apply Qlt_bool_false_iff. lra.
Qed.

Lemma datetime_sub_ok (t : Z) :
  timedelta_minutes 5 <= t ->
  datetime_sub t (timedelta_minutes 5) = Ok (t - timedelta_minutes 5).
Proof.
  intros H. unfold datetime_sub.
  destruct (Z.ltb_spec (t - timedelta_minutes 5) 0); [lia|reflexivity].
Qed.

Ltac run_step :=
  unfold mbind, M_bind, mret, M_ret, get_self, session_get, _LOGGER, response_json,
    raise, lift, datetime_utcnow;
  cbn -[_ensure_valid_token latest_power_reading strftime_iso_us quote drop_last3
        timedelta_minutes datetime_sub String.append str_int].

(** C1, what the code does on [[401, 200]] when the token passes the local
    expiry check (at the two readings of the clock that the operation
    takes): each read operation sends its request twice with the same
    token and sends nothing to the authentication host, so no refresh is
    attempted; the 401 does not force one.  The final result is what the
    operation makes of the 200 payload. *)
Theorem retry_without_refresh (op : read_operation) (w : world) (E : Z)
    (r1 r2 : ClientResponse) (rest : list outcome) (data : pyobj) :
  locally_valid (self w) E (clock w (ticks w)) ->
  locally_valid (self w) E (clock w (S (ticks w))) ->
  timedelta_minutes 5 <= utcnow w ->
  api_server w = Responds r1 :: Responds r2 :: rest ->
  status r1 = 401 -> status r2 = 200 -> json r2 = Some data ->
  exists w',
    run op w = (payload_of op data, w')
    /\ sent w' = (sent w ++ [get_request (url_of op w) (access_token (self w));
                             get_request (url_of op w) (access_token (self w))])%list
    /\ auth_server w' = auth_server w
    /\ api_server w' = rest
    /\ self w' = self w.
Proof.
  intros V1 V2 Hu Hq H1 H2 Hj.
  destruct op; unfold run.
  - unfold get_initialisation_data.
    rewrite (bind_ok _ _ _ _ _ (ensure_valid_token_locally_valid w E V1)).
    run_step. rewrite Hq, H1. run_step.
    rewrite (ensure_valid_token_locally_valid _ E) by exact V2.
    run_step. rewrite H2, Hj. run_step.
    eexists. split; [reflexivity|]. cbn.
    repeat split. now rewrite <- app_assoc.
  - unfold get_current_power.
    rewrite (bind_ok _ _ _ _ _ (ensure_valid_token_locally_valid w E V1)).
    run_step. rewrite (datetime_sub_ok _ Hu). run_step. rewrite Hq, H1. run_step.
    rewrite (ensure_valid_token_locally_valid _ E) by exact V2.
    run_step. rewrite H2, Hj. run_step.
    eexists. split; [reflexivity|]. cbn -[power_url].
    repeat split. now rewrite <- app_assoc.
  - unfold get_meter_info.
    rewrite (bind_ok _ _ _ _ _ (ensure_valid_token_locally_valid w E V1)).
    run_step. rewrite Hq, H1. run_step.
    rewrite (ensure_valid_token_locally_valid _ E) by exact V2.
    run_step. rewrite H2, Hj. run_step.
    eexists. split; [reflexivity|]. cbn.
    repeat split. now rewrite <- app_assoc.
Qed.

Lemma retry_without_refresh_witness :
  let w := example_world example_client 1010
             [] [reply 401 "Unauthorized" None; reply 200 "" (Some example_payload)] in
  Forall (fun op =>
            exists w',
              run op w = (payload_of op example_payload, w')
              /\ sent w' = [get_request (url_of op w) (PyStr "tok");
                            get_request (url_of op w) (PyStr "tok")]
              /\ auth_server w' = []
              /\ api_server w' = []
              /\ self w' = example_client)
    [GetInitialisationData; GetCurrentPower; GetMeterInfo].
Proof.
  cbn zeta.
  repeat constructor;
    match goal with
    | |- exists w', run ?op _ = _ /\ _ =>
        apply (retry_without_refresh op
                 (example_world example_client 1010
                    [] [reply 401 "Unauthorized" None;
                        reply 200 "" (Some example_payload)])
                 3600
                 {| status := 401; text := "Unauthorized"; json := None |}
                 {| status := 200; text := ""; json := Some example_payload |}
                 [] example_payload)
    end;
    first [ reflexivity
          | repeat split; first [ lia | vm_compute; discriminate ]
          | vm_compute; discriminate ].
Defined.

(** The refresh on a 401 is decided by the clock alone: the same exchange
    with a token that runs into its last 300 seconds between the two checks
    (first reading half a microsecond before that point, second reading
    half a microsecond after) does go through a refresh, and the retry
    carries the new token. *)
Example retry_refreshes_when_locally_expired :
  let w := example_world example_client (8599999999 # 2000000)
             [reply 200 "" (Some (PyDict example_tokens))]
             [reply 401 "Unauthorized" None; reply 200 "" (Some example_payload)] in
  fst (get_meter_info w) = Ok example_payload
  /\ map (fun r => (req_method r, req_bearer r)) (sent (snd (get_meter_info w))) =
       [(GET, Some (PyStr "tok")); (POST, None); (GET, Some (PyStr "tok2"))].
Proof. vm_compute. split; reflexivity. Qed.

(** *** What token management leaves alone

    A relation between the world before and the world after that holds
    across every primitive step the token management takes holds across
    [_ensure_valid_token] and everything it calls. *)

Section Respects.

Variable R : world -> world -> Prop.
Hypothesis R_refl : forall w, R w w.
Hypothesis R_trans : forall w1 w2 w3, R w1 w2 -> R w2 w3 -> R w1 w3.
Hypothesis R_self : forall c w, R w (with_self c w).
Hypothesis R_ticks : forall n w, R w (with_ticks n w).
Hypothesis R_logged : forall l w, R w (with_logged l w).
Hypothesis R_entry_data : forall d w, R w (with_entry_data d w).
Hypothesis R_post : forall url body w, R w (snd (session_post url body w)).

Lemma respects_bind {A B : Type} (m : M A) (f : A -> M B) :
  respects R m -> (forall a, respects R (f a)) -> respects R (m ≫= f).
Proof.
  intros Hm Hf w. unfold mbind, M_bind. specialize (Hm w).
  destruct (m w) as [[a|e] w1]; cbn in *; [|exact Hm].
  eapply R_trans; [exact Hm|apply Hf].
Qed.

Lemma respects_try_except {A : Type} (m : M A) (h : exn -> M A) :
  respects R m -> (forall e, respects R (h e)) -> respects R (try_except m h).
Proof.
  intros Hm Hh w. unfold try_except. specialize (Hm w).
  destruct (m w) as [[a|e] w1]; cbn in *; [exact Hm|].
  eapply R_trans; [exact Hm|apply Hh].
Qed.

Lemma respects_ret {A : Type} (a : A) : respects R (mret a).
Proof. intros w. apply R_refl. Qed.

Lemma respects_raise {A : Type} (e : exn) : respects R (@raise A e).
Proof. intros w. apply R_refl. Qed.

Lemma respects_lift {A : Type} (r : result A) : respects R (lift r).
Proof. intros w. apply R_refl. Qed.

Lemma respects_get_self : respects R get_self.
Proof. intros w. apply R_refl. Qed.

Lemma respects_put_self (c : IONAEnergyAPI) : respects R (put_self c).
Proof. intros w. apply R_self. Qed.

Lemma respects_time_time : respects R time_time.
Proof. intros w. apply R_ticks. Qed.

Lemma respects_LOGGER (lvl : log_level) (fmt : string) (args : list log_arg) :
  respects R (_LOGGER lvl fmt args).
Proof. intros w. apply R_logged. Qed.

Lemma respects_session_post (url : string) (body : pyobj) :
  respects R (session_post url body).
Proof. intros w. apply R_post. Qed.

Lemma respects_response_json (r : ClientResponse) : respects R (response_json r).
Proof. unfold response_json. destruct (json r); intros w; apply R_refl. Qed.

Lemma respects_async_update_entry (e : ConfigEntry) (d : gmap string pyobj) :
  respects R (async_update_entry e d).
Proof. intros w. apply R_entry_data. Qed.

Lemma respects_config_entry_data (e : ConfigEntry) : respects R (config_entry_data e).
Proof. intros w. apply R_refl. Qed.

Ltac respects_tac :=
  repeat first
    [ apply respects_ret | apply respects_raise | apply respects_lift
    | apply respects_get_self | apply respects_put_self | apply respects_time_time
    | apply respects_LOGGER | apply respects_session_post
    | apply respects_response_json | apply respects_async_update_entry
    | apply respects_config_entry_data
    | assumption
    | apply respects_bind; [|intros ?]
    | apply respects_try_except; [|intros ?]
    | match goal with
      | |- respects R (if ?b then _ else _) => destruct b
      | |- respects R (match ?x with _ => _ end) => destruct x
      end ].

Lemma respects_set_access_token (v : pyobj) : respects R (set_access_token v).
Proof. unfold set_access_token. respects_tac. Qed.

Lemma respects_set_refresh_token (v : pyobj) : respects R (set_refresh_token v).
Proof. unfold set_refresh_token. respects_tac. Qed.

Lemma respects_set_expires_in (v : pyobj) : respects R (set_expires_in v).
Proof. unfold set_expires_in. respects_tac. Qed.

Lemma respects_set_token_created_at (t : Q) : respects R (set_token_created_at t).
Proof. unfold set_token_created_at. respects_tac. Qed.

Lemma respects_set_last_token_refresh (t : Q) : respects R (set_last_token_refresh t).
Proof. unfold set_last_token_refresh. respects_tac. Qed.

Lemma respects_is_token_expired : respects R _is_token_expired.
Proof. unfold _is_token_expired. respects_tac. Qed.

Lemma respects_update_tokens (new_tokens : pyobj) :
  respects R (_update_tokens_in_config_entry new_tokens).
Proof.
  unfold _update_tokens_in_config_entry.
  respects_tac;
    first [ apply respects_set_access_token | apply respects_set_refresh_token
          | apply respects_set_expires_in | apply respects_set_token_created_at
          | apply respects_set_last_token_refresh ].
Qed.

Lemma respects_refresh_access_token : respects R refresh_access_token.
Proof.
  unfold refresh_access_token.
  pose proof respects_update_tokens. respects_tac.
Qed.

Lemma respects_ensure_valid_token : respects R _ensure_valid_token.
Proof.
  unfold _ensure_valid_token.
  pose proof respects_is_token_expired. pose proof respects_refresh_access_token.
  respects_tac.
Qed.

End Respects.

Lemma frame_refl (w : world) : frame w w.
Proof. repeat split. Qed.

Lemma frame_trans (w1 w2 w3 : world) : frame w1 w2 -> frame w2 w3 -> frame w1 w3.
Proof. unfold frame. intros (-> & -> & ->) (-> & -> & ->). repeat split. Qed.

Lemma frame_ensure_valid_token (w : world) : frame w (snd (_ensure_valid_token w)).
Proof.
  apply respects_ensure_valid_token;
    [ exact frame_refl | exact frame_trans
    | intros c w0; repeat split | intros n w0; repeat split
    | intros l w0; repeat split | intros d w0; repeat split | ].
  intros url body w0. unfold session_post. cbn.
  destruct (auth_server w0) as [|[r|e] rest]; repeat split.
Qed.

Lemma posts_more_same_sent (w w' : world) : sent w' = sent w -> posts_more w w'.
Proof. intros H. exists []. split; [now rewrite app_nil_r|constructor]. Qed.

Lemma posts_more_refl (w : world) : posts_more w w.
Proof. now apply posts_more_same_sent. Qed.

Lemma posts_more_trans (w1 w2 w3 : world) :
  posts_more w1 w2 -> posts_more w2 w3 -> posts_more w1 w3.
Proof.
  intros (l1 & E1 & F1) (l2 & E2 & F2). exists (l1 ++ l2)%list. split.
  - now rewrite E2, E1, <- app_assoc.
  - apply Forall_app. now split.
Qed.

Lemma posts_more_ensure_valid_token (w : world) :
  posts_more w (snd (_ensure_valid_token w)).
Proof.
  apply respects_ensure_valid_token;
    [ exact posts_more_refl | exact posts_more_trans
    | intros c w0; now apply posts_more_same_sent
    | intros n w0; now apply posts_more_same_sent
    | intros l w0; now apply posts_more_same_sent
    | intros d w0; now apply posts_more_same_sent | ].
  intros url body w0. exists [{| req_method := POST; req_url := url;
                                  req_bearer := None; req_json := Some body |}].
  split; [|repeat constructor].
  unfold session_post. cbn. now destruct (auth_server w0) as [|[r|e] rest].
Qed.

(** *** [get_current_power] and the payload of its 200 response *)

Lemma ensure_valid_token_utcnow (w w1 : world) (r : result unit) :
  _ensure_valid_token w = (r, w1) -> utcnow w1 = utcnow w.
Proof.
  intros H. pose proof (frame_ensure_valid_token w) as F.
  rewrite H in F. apply F.
Qed.

Lemma get_current_power_receives_200 (w : world) (data : pyobj) :
  receives_200 w data ->
  timedelta_minutes 5 <= utcnow w ->
  fst (get_current_power w) = latest_power_reading data.
Proof.
  intros [w1 r rest He Hq Hs Hj | w1 w2 r1 r2 rest rest' He Hq Hs He2 Hq2 Hs2 Hj] Hu;
    pose proof (ensure_valid_token_utcnow _ _ _ He) as Hut;
    unfold get_current_power;
    rewrite (bind_ok _ _ _ _ _ He); run_step;
    rewrite Hut, (datetime_sub_ok _ Hu); run_step; rewrite Hq, Hs; run_step.
  - rewrite Hj. run_step. now destruct (latest_power_reading data).
  - match goal with
    | |- context [_ensure_valid_token ?W] =>
        replace (_ensure_valid_token W) with (Ok tt, w2)
          by (rewrite <- He2; reflexivity)
    end.
    run_step. rewrite Hq2, Hs2. run_step. rewrite Hj. run_step.
    now destruct (latest_power_reading data).
Qed.

(** C6: a [get_current_power] call whose 200 payload has [status == "ok"]
    and a non-empty [data.results] list ending in an object returns that
    last element reshaped as [{power, timestamp, unit: "W"}] (a missing
    [power] reads 0, a missing [timestamp] reads the empty string); on
    [results = [{power:100,timestamp:"t1"}, {power:150,timestamp:"t2"}]] it
    returns [{power:150, timestamp:"t2", unit:"W"}]. *)
Theorem get_current_power_latest (w : world) (d dd ld : gmap string pyobj)
    (rs : list pyobj) :
  receives_200 w (PyDict d) ->
  timedelta_minutes 5 <= utcnow w ->
  d !! "status" = Some (PyStr "ok") ->
  d !! "data" = Some (PyDict dd) ->
  dd !! "results" = Some (PyList rs) ->
  last rs = Some (PyDict ld) ->
  fst (get_current_power w) =
    Ok (power_reading (default (PyInt 0) (ld !! "power"))
                      (default (PyStr "") (ld !! "timestamp")))
  /\ (rs = [PyDict (<["power" := PyInt 100]> {["timestamp" := PyStr "t1"]});
            PyDict (<["power" := PyInt 150]> {["timestamp" := PyStr "t2"]})] ->
      fst (get_current_power w) = Ok (power_reading (PyInt 150) (PyStr "t2"))).
Proof.
  intros Hr Hu Hs Hd Hres Hl.
  rewrite (get_current_power_receives_200 w _ Hr Hu).
  rewrite (latest_power_reading_ok d dd ld rs Hs Hd Hres Hl).
  split; [reflexivity|].
  intros ->. cbn in Hl. injection Hl as <-. reflexivity.
Qed.

Lemma get_current_power_latest_witness :
  let w := example_world example_client 1010
             [] [reply 200 "" (Some (power_body (PyList example_results)))] in
  fst (get_current_power w) = Ok (power_reading (PyInt 150) (PyStr "t2")).
Proof.
  cbn zeta.
  refine (proj2 (get_current_power_latest
            (example_world example_client 1010
               [] [reply 200 "" (Some (power_body (PyList example_results)))])
            (<["status" := PyStr "ok"]>
               {["data" := PyDict {["results" := PyList example_results]}]})
            {["results" := PyList example_results]}
            (<["power" := PyInt 150]> {["timestamp" := PyStr "t2"]})
            example_results _ _ _ _ _ _) _).
  - eapply receives_first.
    + apply pair_fst_snd. vm_compute. reflexivity.
    + vm_compute. reflexivity.
    + reflexivity.
    + reflexivity.
  - vm_compute. discriminate.
  - vm_compute. reflexivity.
  - vm_compute. reflexivity.
  - vm_compute. reflexivity.
  - reflexivity.
  - reflexivity.
Defined.

(** C2, what the code does: when the 200 payload of [get_current_power]
    has [status == "ok"] and a [data.results] list that is present but
    empty, the call raises "Invalid response format", the same error as for
    a missing [results] key; "No power data available" is raised for no
    payload at all, since the guard in front of that branch has already
    rejected an empty list. *)
Theorem get_current_power_empty_results (w : world) (d dd : gmap string pyobj) :
  receives_200 w (PyDict d) ->
  timedelta_minutes 5 <= utcnow w ->
  d !! "status" = Some (PyStr "ok") ->
  d !! "data" = Some (PyDict dd) ->
  (dd !! "results" = Some (PyList []) ->
   fst (get_current_power w) = Raise (ValueError "Invalid response format"))
  /\ (dd !! "results" = None ->
      fst (get_current_power w) = Raise (ValueError "Invalid response format"))
  /\ fst (get_current_power w) <> Raise (ValueError "No power data available").
Proof.
  intros Hr Hu Hs Hd.
  rewrite (get_current_power_receives_200 w _ Hr Hu).
  split; [|split].
  - apply latest_power_reading_empty_results; assumption.
  - apply latest_power_reading_missing_results; assumption.
  - apply latest_power_reading_never_no_data.
Qed.

Lemma get_current_power_empty_results_witness :
  let w := example_world example_client 1010
             [] [reply 200 "" (Some (power_body (PyList [])))] in
  fst (get_current_power w) = Raise (ValueError "Invalid response format").
Proof.
  cbn zeta.
  refine (proj1 (get_current_power_empty_results
            (example_world example_client 1010
               [] [reply 200 "" (Some (power_body (PyList [])))])
            (<["status" := PyStr "ok"]> {["data" := PyDict {["results" := PyList []]}]})
            {["results" := PyList []]} _ _ _ _) _).
  - eapply receives_first.
    + apply pair_fst_snd. vm_compute. reflexivity.
    + vm_compute. reflexivity.
    + reflexivity.
    + reflexivity.
  - vm_compute. discriminate.
  - vm_compute. reflexivity.
  - vm_compute. reflexivity.
  - vm_compute. reflexivity.
Defined.

(** *** The second attempt *)

(** A second answer other than 200 (a second 401 in particular) ends the
    operation with an error that names this second status; there is no
    third request. *)
Lemma retry_second_failure (op : read_operation) (w : world) (E : Z)
    (r1 r2 : ClientResponse) (rest : list outcome) :
  locally_valid (self w) E (clock w (ticks w)) ->
  locally_valid (self w) E (clock w (S (ticks w))) ->
  timedelta_minutes 5 <= utcnow w ->
  api_server w = Responds r1 :: Responds r2 :: rest ->
  status r1 = 401 -> status r2 <> 200 ->
  exists w',
    run op w = (Raise (ClientResponseError (url_of op w) (status r2)
                         (retry_failure_message op +:+ str_int (status r2))), w')
    /\ sent w' = (sent w ++ [get_request (url_of op w) (access_token (self w));
                             get_request (url_of op w) (access_token (self w))])%list
    /\ auth_server w' = auth_server w
    /\ api_server w' = rest.
Proof.
  intros V1 V2 Hu Hq H1 H2.
  apply Z.eqb_neq in H2.
  destruct op; unfold run.
  - unfold get_initialisation_data.
    rewrite (bind_ok _ _ _ _ _ (ensure_valid_token_locally_valid w E V1)).
    run_step. rewrite Hq, H1. run_step.
    rewrite (ensure_valid_token_locally_valid _ E) by exact V2.
    run_step. rewrite H2.
    eexists. split; [reflexivity|]. cbn.
    repeat split. now rewrite <- app_assoc.
  - unfold get_current_power.
    rewrite (bind_ok _ _ _ _ _ (ensure_valid_token_locally_valid w E V1)).
    run_step. rewrite (datetime_sub_ok _ Hu). run_step. rewrite Hq, H1. run_step.
    rewrite (ensure_valid_token_locally_valid _ E) by exact V2.
    run_step. rewrite H2.
    eexists. split; [reflexivity|]. cbn -[power_url].
    repeat split. now rewrite <- app_assoc.
  - unfold get_meter_info.
    rewrite (bind_ok _ _ _ _ _ (ensure_valid_token_locally_valid w E V1)).
    run_step. rewrite Hq, H1. run_step.
    rewrite (ensure_valid_token_locally_valid _ E) by exact V2.
    run_step. rewrite H2.
    eexists. split; [reflexivity|]. cbn.
    repeat split. now rewrite <- app_assoc.
Qed.

(** ** The time window of [get_current_power] *)

Example fields_of_example_utcnow :
  fields_of example_utcnow =
    {| year := 2024; month := 1; day := 31;
       hour := 23; minute := 58; second := 20; microsecond := 123456 |}.
Proof. reflexivity. Qed.

Example fields_of_leap_day :
  fields_of (63844848150999999 - timedelta_minutes 5) =
    {| year := 2024; month := 2; day := 29;
       hour := 23; minute := 57; second := 30; microsecond := 999999 |}.
Proof. reflexivity. Qed.

Example fields_of_epoch :
  fields_of 62135596800000000 =
    {| year := 1970; month := 1; day := 1;
       hour := 0; minute := 0; second := 0; microsecond := 0 |}.
Proof. reflexivity. Qed.

Example fields_of_no_leap_day_1900 :
  fields_of 59931705600000000 =
    {| year := 1900; month := 3; day := 1;
       hour := 0; minute := 0; second := 0; microsecond := 0 |}.
Proof. reflexivity. Qed.

Example fields_of_last_instant :
  fields_of (YEAR_10000 - 1) =
    {| year := 9999; month := 12; day := 31;
       hour := 23; minute := 59; second := 59; microsecond := 999999 |}.
Proof. reflexivity. Qed.

Example power_url_leap_day :
  power_url 63844848150999999 =
    "https://api.n2g-iona.net/v2/power/2024-02-29T23%3A57%3A30.999Z/2024-03-01T00%3A02%3A30.999Z/".
Proof. reflexivity. Qed.

(** *** Strings *)

Lemma string_app_cons (x : ascii) (a b : string) :
  String x a +:+ b = String x (a +:+ b).
Proof. reflexivity. Qed.

Lemma string_app_nil (b : string) : "" +:+ b = b.
Proof. reflexivity. Qed.

Lemma string_app_assoc (a b c : string) : (a +:+ b) +:+ c = a +:+ (b +:+ c).
Proof.
  induction a as [|x a IH]; [reflexivity|].
  rewrite !string_app_cons. now f_equal.
Qed.

Lemma string_app_length (a b : string) :
  String.length (a +:+ b) = (String.length a + String.length b)%nat.
Proof.
  induction a as [|x a IH]; [reflexivity|].
  rewrite string_app_cons. cbn [String.length]. now rewrite IH.
Qed.

Lemma substring_app_prefix (a b : string) :
  substring 0 (String.length a) (a +:+ b) = a.
Proof.
  induction a as [|x a IH].
  - rewrite string_app_nil. now destruct b.
  - rewrite string_app_cons. cbn [String.length substring]. now f_equal.
Qed.

Lemma drop_last3_app (a : string) (x y z : ascii) :
  drop_last3 (a +:+ String x (String y (String z ""))) = a.
Proof.
  unfold drop_last3. rewrite string_app_length. cbn [String.length].
  replace (String.length a + 3 - 3)%nat with (String.length a) by lia.
  apply substring_app_prefix.
Qed.

Lemma zfill_6_split (n : Z) :
  zfill 6 n =
    zfill 3 (n / 1000)
    +:+ String (digit (n / 100)) (String (digit (n / 10)) (String (digit n) "")).
Proof.
  change (zfill 6 n) with
    (((zfill 3 (n / 10 / 10 / 10) +:+ String (digit (n / 10 / 10)) "")
      +:+ String (digit (n / 10)) "") +:+ String (digit n) "").
  rewrite !Z.div_div by lia. rewrite !string_app_assoc. reflexivity.
Qed.

(** Cutting the last three characters off a text that ends in the six
    digits of the microseconds leaves the three digits of the
    milliseconds. *)
Lemma drop_last3_zfill_6 (a : string) (n : Z) :
  drop_last3 (a +:+ zfill 6 n) = a +:+ zfill 3 (n / 1000).
Proof.
  rewrite zfill_6_split, <- string_app_assoc. apply drop_last3_app.
Qed.

(** *** Percent-encoding *)

Lemma quote_app (a b : string) : quote (a +:+ b) = quote a +:+ quote b.
Proof.
  induction a as [|x a IH]; [reflexivity|].
  rewrite string_app_cons. cbn [quote]. rewrite IH.
  now rewrite string_app_assoc.
Qed.

Lemma digit_cases (n : Z) :
  exists m : nat, (m < 10)%nat /\ digit n = ascii_of_nat (48 + m).
Proof.
  exists (Z.to_nat (n mod 10)). split; [|reflexivity].
  pose proof (Z.mod_pos_bound n 10). lia.
Qed.

Lemma quote_digit (n : Z) : quote (String (digit n) "") = String (digit n) "".
Proof.
  destruct (digit_cases n) as (m & Hm & ->).
  do 10 (destruct m as [|m]; [reflexivity|]). lia.
Qed.

Lemma quote_zfill (k : nat) (n : Z) : quote (zfill k n) = zfill k n.
Proof.
  revert n. induction k as [|k IH]; intros n; [reflexivity|].
  cbn [zfill]. now rewrite quote_app, IH, quote_digit.
Qed.

(** Percent-encoding a timestamp of the specified format only rewrites its
    colons. *)
Lemma quote_iso8601_ms (f : datetime_fields) :
  quote (iso8601_ms f) = iso8601_ms_path f.
Proof.
  unfold iso8601_ms, iso8601_ms_path.
  rewrite !quote_app, !quote_zfill. reflexivity.
Qed.

(** *** The year has four digits *)

Lemma ord2ymd_year_range (n : Z) :
  _days_before_year 1000 < n <= _days_before_year 10000 ->
  1000 <= fst (fst (_ord2ymd n)) <= 9999.
Proof.
  change (_days_before_year 1000) with 364877.
  change (_days_before_year 10000) with 3652059.
  intros Hn. unfold _ord2ymd, _DI400Y, _DI100Y, _DI4Y.
  set (n0 := n - 1).
  set (n400 := n0 / 146097). set (r1 := n0 mod 146097).
  set (n100 := r1 / 36524). set (r2 := r1 mod 36524).
  set (n4 := r2 / 1461). set (r3 := r2 mod 1461).
  set (n1 := r3 / 365). set (r4 := r3 mod 365).
  assert (H1 : n0 = 146097 * n400 + r1 /\ 0 <= r1 < 146097)
    by (subst n400 r1; split; [apply Z.div_mod; lia | apply Z.mod_pos_bound; lia]).
  assert (H2 : r1 = 36524 * n100 + r2 /\ 0 <= r2 < 36524)
    by (subst n100 r2; split; [apply Z.div_mod; lia | apply Z.mod_pos_bound; lia]).
  assert (H3 : r2 = 1461 * n4 + r3 /\ 0 <= r3 < 1461)
    by (subst n4 r3; split; [apply Z.div_mod; lia | apply Z.mod_pos_bound; lia]).
  assert (H4 : r3 = 365 * n1 + r4 /\ 0 <= r4 < 365)
    by (subst n1 r4; split; [apply Z.div_mod; lia | apply Z.mod_pos_bound; lia]).
  clearbody n400 r1 n100 r2 n4 r3 n1 r4. subst n0.
  destruct (Z.eqb_spec n1 4) as [E1|E1]; destruct (Z.eqb_spec n100 4) as [E2|E2];
    cbn [orb fst].
  1-3: lia.
  destruct (_ <? _)%Z; cbn [fst]; lia.
Qed.

Lemma str_int_four_digits (y : Z) : 1000 <= y <= 9999 -> str_int y = zfill 4 y.
Proof.
  intros Hy.
  assert (H : forallb (fun k => String.eqb (str_int (Z.of_nat k)) (zfill 4 (Z.of_nat k)))
                (seq (Z.to_nat 1000) (Z.to_nat 9000)) = true) by (vm_compute; reflexivity).
  rewrite forallb_forall in H.
  specialize (H (Z.to_nat y)).
  rewrite Z2Nat.id in H by lia.
  apply String.eqb_eq, H, in_seq. lia.
Qed.

Lemma fields_of_year (t : Z) :
  year (fields_of t) = fst (fst (_ord2ymd (t / US_PER_DAY + 1))).
Proof. unfold fields_of. now destruct (_ord2ymd _) as [[y m] d]. Qed.

Lemma year_in_range (t : Z) :
  YEAR_1000 <= t < YEAR_10000 -> 1000 <= year (fields_of t) <= 9999.
Proof.
  intros [Hlo Hhi]. rewrite fields_of_year. apply ord2ymd_year_range.
  unfold YEAR_1000, YEAR_10000 in *.
  change US_PER_DAY with 86400000000 in *.
  split.
  - assert (_days_before_year 1000 <= t / 86400000000)
      by (apply Z.div_le_lower_bound; lia). lia.
  - assert (t / 86400000000 < _days_before_year 10000)
      by (apply Z.div_lt_upper_bound; lia). lia.
Qed.

(** What the source computes, [strftime("%Y-%m-%dT%H:%M:%S.%f")[:-3] + "Z"],
    is the timestamp in the format of the specification. *)
Lemma strftime_is_iso8601_ms (t : Z) :
  YEAR_1000 <= t < YEAR_10000 ->
  drop_last3 (strftime_iso_us t) +:+ "Z" = iso8601_ms (fields_of t).
Proof.
  intros Ht. unfold strftime_iso_us, iso8601_ms.
  rewrite (str_int_four_digits _ (year_in_range t Ht)).
  rewrite <- !string_app_assoc. rewrite drop_last3_zfill_6. reflexivity.
Qed.

Lemma power_url_spec (T : Z) :
  YEAR_1000 + timedelta_minutes 5 <= T < YEAR_10000 ->
  power_url T =
    "https://api.n2g-iona.net/v2/power/"
    +:+ iso8601_ms_path (fields_of (T - 300 * US_PER_SECOND)) +:+ "/"
    +:+ iso8601_ms_path (fields_of T) +:+ "/".
Proof.
  intros HT. unfold power_url.
  change (timedelta_minutes 5) with (300 * US_PER_SECOND) in *.
  rewrite !strftime_is_iso8601_ms by (change US_PER_SECOND with 1000000 in *; lia).
  now rewrite !quote_iso8601_ms.
Qed.

(** *** The requests of [get_current_power] *)

Lemma gets_go_to_posts (url : string) (l : list request) :
  Forall (fun r => req_method r = POST) l -> gets_go_to url l.
Proof.
  intros H. eapply Forall_impl; [exact H|].
  intros r H1 H2. rewrite H1 in H2. discriminate.
Qed.

Lemma gets_go_to_get (url : string) (token : pyobj) :
  gets_go_to url [get_request url token].
Proof. repeat constructor. Qed.

Lemma gets_go_to_app (url : string) (l1 l2 : list request) :
  gets_go_to url l1 -> gets_go_to url l2 -> gets_go_to url (l1 ++ l2)%list.
Proof. intros H1 H2. apply Forall_app. now split. Qed.

Lemma get_current_power_trace (w : world) :
  timedelta_minutes 5 <= utcnow w ->
  (exists l, sent (snd (get_current_power w)) = (sent w ++ l)%list
             /\ gets_go_to (power_url (utcnow w)) l)
  /\ (forall w1, _ensure_valid_token w = (Ok tt, w1) ->
      exists more,
        sent (snd (get_current_power w)) =
          (sent w1 ++ get_request (power_url (utcnow w)) (access_token (self w1)) :: more)%list).
Proof.
  intros Hu. unfold get_current_power.
  destruct (posts_more_ensure_valid_token w) as (l1 & E1 & F1).
  destruct (_ensure_valid_token w) as [[[]|e] w1] eqn:He; cbn [snd] in E1.
  2: { rewrite (bind_raise _ _ _ _ _ He). cbn [snd]. split; [|discriminate].
       exists l1. split; [exact E1|now apply gets_go_to_posts]. }
  pose proof (ensure_valid_token_utcnow _ _ _ He) as Hut.
  rewrite (bind_ok _ _ _ _ _ He). run_step.
  rewrite Hut, (datetime_sub_ok _ Hu). run_step.
  fold (power_url (utcnow w)).
  set (url := power_url (utcnow w)).
  set (G1 := {| req_method := GET; req_url := url;
                req_bearer := Some (access_token (self w1)); req_json := None |}).
  assert (HG1 : gets_go_to url (l1 ++ [G1])%list)
    by (apply gets_go_to_app; [now apply gets_go_to_posts|apply gets_go_to_get]).
  assert (first_get : forall s : list request,
            s = (sent w1 ++ [G1])%list ->
            (exists l, s = (sent w ++ l)%list /\ gets_go_to url l)
            /\ (forall w1', (Ok tt, w1) = (Ok tt, w1') ->
                exists more,
                  s = (sent w1' ++ get_request url (access_token (self w1')) :: more)%list)).
  { intros s Hx. split.
    - exists (l1 ++ [G1])%list. split; [|exact HG1]. now rewrite Hx, E1, <- app_assoc.
    - intros w1' [= <-]. exists []. exact Hx. }
  destruct (api_server w1) as [|[r|e] rest] eqn:Hq; run_step;
    try (apply first_get; reflexivity).
  destruct (Z.eqb_spec (status r) 200) as [Hs|Hs].
  { destruct (json r); run_step;
      [destruct (latest_power_reading p)|]; apply first_get; reflexivity. }
  destruct (Z.eqb_spec (status r) 401) as [Hs'|Hs']; run_step;
    [|apply first_get; reflexivity].
  match goal with
  | |- context [_ensure_valid_token ?W] =>
      destruct (posts_more_ensure_valid_token W) as (l2 & E2 & F2);
      destruct (_ensure_valid_token W) as [[[]|e2] w2] eqn:He2
  end; cbn [snd] in E2; cbn -[url] in E2.
  2: { cbn [snd]. split.
       - exists (l1 ++ [G1] ++ l2)%list. split.
         + rewrite E2, E1. now rewrite <- !app_assoc.
         + repeat apply gets_go_to_app;
             first [now apply gets_go_to_posts | apply gets_go_to_get].
       - intros w1' [= <-]. exists l2. rewrite E2. now rewrite <- app_assoc. }
  set (G2 := {| req_method := GET; req_url := url;
                req_bearer := Some (access_token (self w2)); req_json := None |}).
  assert (second_get : forall s : list request,
            s = (sent w2 ++ [G2])%list ->
            (exists l, s = (sent w ++ l)%list /\ gets_go_to url l)
            /\ (forall w1', (Ok tt, w1) = (Ok tt, w1') ->
                exists more,
                  s = (sent w1' ++ get_request url (access_token (self w1')) :: more)%list)).
  { intros s Hx. split.
    - exists (l1 ++ [G1] ++ l2 ++ [G2])%list. split.
      + rewrite Hx, E2, E1. now rewrite <- !app_assoc.
      + repeat apply gets_go_to_app;
          first [now apply gets_go_to_posts | apply gets_go_to_get].
    - intros w1' [= <-]. exists (l2 ++ [G2])%list.
      rewrite Hx, E2. now rewrite <- !app_assoc. }
  run_step.
  destruct (api_server w2) as [|[r2|e2] rest2] eqn:Hq2; run_step;
    try (apply second_get; reflexivity).
  destruct (Z.eqb_spec (status r2) 200) as [Hs2|Hs2]; run_step;
    [|apply second_get; reflexivity].
  destruct (json r2); run_step;
    [destruct (latest_power_reading p)|]; apply second_get; reflexivity.
Qed.

(** C7: for a [get_current_power] call made at the instant [T] (from year
    1000 on), the window runs from [T - 300 s] to [T]; both bounds are
    written as millisecond-precision UTC ISO-8601 timestamps with a literal
    trailing [Z], percent-encoded (which rewrites the colons only), and put
    in the path [/v2/power/{start}/{end}/]; every GET that the call sends,
    the retry included, goes to that URL, and one is sent as soon as the
    token check has passed. *)
Theorem power_window (w : world) :
  YEAR_1000 + timedelta_minutes 5 <= utcnow w < YEAR_10000 ->
  let T := utcnow w in
  let start := T - 300 * US_PER_SECOND in
  let url := "https://api.n2g-iona.net/v2/power/"
             +:+ quote (iso8601_ms (fields_of start)) +:+ "/"
             +:+ quote (iso8601_ms (fields_of T)) +:+ "/" in
  quote (iso8601_ms (fields_of start)) = iso8601_ms_path (fields_of start)
  /\ quote (iso8601_ms (fields_of T)) = iso8601_ms_path (fields_of T)
  /\ (exists l, sent (snd (get_current_power w)) = (sent w ++ l)%list
                /\ gets_go_to url l)
  /\ (forall w1, _ensure_valid_token w = (Ok tt, w1) ->
      exists more,
        sent (snd (get_current_power w)) =
          (sent w1 ++ get_request url (access_token (self w1)) :: more)%list).
Proof.
  intros HT T start url.
  assert (Hurl : power_url (utcnow w) = url).
  { rewrite (power_url_spec _ HT). subst url start T.
    now rewrite !quote_iso8601_ms. }
  assert (Hu : timedelta_minutes 5 <= utcnow w)
    by (change YEAR_1000 with 31525372800000000 in HT; lia).
  destruct (get_current_power_trace w Hu) as [H1 H2]. rewrite Hurl in H1, H2.
  repeat split; [apply quote_iso8601_ms | apply quote_iso8601_ms | exact H1 | exact H2].
Qed.

Lemma power_window_witness :
  let w := example_world example_client 1010
             [] [reply 200 "" (Some (power_body (PyList example_results)))] in
  exists l,
    sent (snd (get_current_power w)) = (sent w ++ l)%list
    /\ gets_go_to
         "https://api.n2g-iona.net/v2/power/2024-01-31T23%3A53%3A20.123Z/2024-01-31T23%3A58%3A20.123Z/"
         l.
Proof.
  cbn zeta.
  refine (proj1 (proj2 (proj2 (power_window
            (example_world example_client 1010
               [] [reply 200 "" (Some (power_body (PyList example_results)))]) _)))).
  vm_compute. split; [discriminate|reflexivity].
Defined.

(** * More of the code *)

(** ** The three read operations are one and the same exchange *)

Ltac case_step :=
  match goal with
  | |- context [_ensure_valid_token ?W] =>
      destruct (_ensure_valid_token W) as [[[]|?] ?]
  | |- context [datetime_sub ?a ?b] => destruct (datetime_sub a b)
  | |- context [api_server ?W] => destruct (api_server W) as [|[?|?] ?]
  | |- context [(status ?r =? ?n)%Z] => destruct (status r =? n)%Z
  | |- context [json ?r] => destruct (json r)
  | |- context [latest_power_reading ?d] => destruct (latest_power_reading d)
  end.

Lemma run_is_request_with_retry (op : read_operation) (w : world) :
  run op w = request_with_retry op w.
Proof.
  destruct op;
    unfold run, get_initialisation_data, get_current_power, get_meter_info,
      request_with_retry, after_token_check, retry_after_401, on_200, status_error,
      build_url, payload_of, log_401, failure_message, retry_failure_message;
    repeat (run_step; try reflexivity; case_step); run_step; reflexivity.
Qed.

Lemma url_of_frame (op : read_operation) (w w1 : world) :
  utcnow w1 = utcnow w -> url_of op w1 = url_of op w.
Proof. intros H. destruct op; cbn; now rewrite ?H. Qed.

Lemma build_url_ok (op : read_operation) (w : world) :
  timedelta_minutes 5 <= utcnow w ->
  build_url op w = (Ok (url_of op w), w).
Proof.
  intros Hu. destruct op; try reflexivity.
  unfold build_url. run_step. rewrite (datetime_sub_ok _ Hu). reflexivity.
Qed.

Lemma build_url_state (op : read_operation) (w : world) :
  snd (build_url op w) = w.
Proof.
  destruct op; try reflexivity.
  unfold build_url. run_step. now destruct (datetime_sub _ _).
Qed.

Lemma build_url_cases (op : read_operation) (w : world) :
  build_url op w = (Ok (url_of op w), w)
  \/ exists e, build_url op w = (Raise e, w).
Proof.
  destruct op; try (left; reflexivity).
  unfold build_url. run_step. unfold datetime_sub, url_of, power_url.
  destruct (_ <? _)%Z; [right; eexists; reflexivity | left; reflexivity].
Qed.

(** What happens after the token check, by the first answer of the API
    host. *)
Lemma after_token_check_answer (op : read_operation) (w : world)
    (o : outcome) (rest : list outcome) :
  timedelta_minutes 5 <= utcnow w ->
  api_server w = o :: rest ->
  after_token_check op w =
    match o with
    | Fails e => (Raise e, after_get (url_of op w) rest w)
    | Responds r =>
        if (status r =? 200)%Z then on_200 op r (after_get (url_of op w) rest w)
        else if (status r =? 401)%Z then
          retry_after_401 op (url_of op w) (after_get (url_of op w) rest w)
        else (Raise (status_error (url_of op w) (failure_message op) r),
              after_get (url_of op w) rest w)
    end.
Proof.
  intros Hu Hq. unfold after_token_check.
  unfold mbind at 1, M_bind at 1, get_self.
  rewrite (bind_ok _ _ _ _ _ (build_url_ok op w Hu)).
  unfold mbind, M_bind, session_get. cbn -[retry_after_401 on_200 url_of].
  rewrite Hq. destruct o as [r|e]; [|reflexivity].
  unfold after_get, get_request.
  destruct (status r =? 200)%Z; [reflexivity|].
  destruct (status r =? 401)%Z; reflexivity.
Qed.

Lemma run_after_token_check (op : read_operation) (w w1 : world) :
  _ensure_valid_token w = (Ok tt, w1) ->
  run op w = after_token_check op w1.
Proof.
  intros He. rewrite run_is_request_with_retry. unfold request_with_retry.
  now rewrite (bind_ok _ _ _ _ _ He).
Qed.

Lemma run_token_check_raises (op : read_operation) (w w1 : world) (e : exn) :
  _ensure_valid_token w = (Raise e, w1) ->
  run op w = (Raise e, w1).
Proof.
  intros He. rewrite run_is_request_with_retry. unfold request_with_retry.
  now rewrite (bind_raise _ _ _ _ _ He).
Qed.

Lemma on_200_json (op : read_operation) (r : ClientResponse) (data : pyobj) (w : world) :
  json r = Some data -> on_200 op r w = (payload_of op data, w).
Proof.
  intros Hj. unfold on_200, response_json, mbind, M_bind, lift. rewrite Hj.
  reflexivity.
Qed.

Lemma on_200_not_json (op : read_operation) (r : ClientResponse) (w : world) :
  json r = None -> on_200 op r w = (Raise ContentTypeError, w).
Proof.
  intros Hj. unfold on_200, response_json, mbind, M_bind, lift. rewrite Hj.
  reflexivity.
Qed.

(** ** The first request of a read operation *)

(** X1: without an access token (unset or empty), each of the three read
    operations raises "No access token available" and leaves the world as
    it was: nothing is sent, neither host is asked, the clock is not
    read. *)
Theorem read_without_token (op : read_operation) (w : world) :
  truthy (access_token (self w)) = false ->
  run op w = (Raise (ValueError "No access token available"), w).
Proof.
  intros H. apply run_token_check_raises. now apply ensure_valid_token_no_token.
Qed.

Lemma read_without_token_witness :
  let w := example_world example_client_no_token 1010
             [reply 200 "" (Some (PyDict example_tokens))]
             [reply 200 "" (Some example_payload)] in
  Forall (fun op => run op w = (Raise (ValueError "No access token available"), w))
    [GetInitialisationData; GetCurrentPower; GetMeterInfo].
Proof.
  cbn zeta.
  repeat first [apply List.Forall_cons | apply List.Forall_nil];
    apply read_without_token; reflexivity.
Defined.

(** X2: once the token check has passed, a first answer whose status is
    neither 200 nor 401 ends the operation with a [ClientResponseError]
    that carries this status and the operation's own message; one GET has
    been sent, nothing goes to the authentication host, the client is
    untouched: only a 401 is retried. *)
Theorem read_other_status (op : read_operation) (w w1 : world)
    (r : ClientResponse) (rest : list outcome) :
  _ensure_valid_token w = (Ok tt, w1) ->
  timedelta_minutes 5 <= utcnow w ->
  api_server w1 = Responds r :: rest ->
  status r <> 200 -> status r <> 401 ->
  exists w',
    run op w = (Raise (ClientResponseError (url_of op w) (status r)
                         (failure_message op +:+ str_int (status r))), w')
    /\ sent w' = (sent w1 ++ [get_request (url_of op w) (access_token (self w1))])%list
    /\ auth_server w' = auth_server w1
    /\ api_server w' = rest
    /\ self w' = self w1
    /\ entry_data w' = entry_data w1.
Proof.
  intros He Hu Hq H2 H4.
  pose proof (ensure_valid_token_utcnow _ _ _ He) as Hut.
  rewrite (run_after_token_check op w w1 He).
  rewrite (after_token_check_answer op w1 (Responds r) rest)
    by (rewrite ?Hut; assumption).
  apply Z.eqb_neq in H2, H4. rewrite H2, H4.
  rewrite (url_of_frame op w w1 Hut).
  eexists. split; [reflexivity|]. repeat split.
Qed.

Lemma read_other_status_witness :
  let w := example_world example_client 1010 [] [reply 503 "busy" None] in
  Forall (fun op =>
            exists w',
              run op w = (Raise (ClientResponseError (url_of op w) 503
                                   (failure_message op +:+ "503")), w')
              /\ sent w' = [get_request (url_of op w) (PyStr "tok")]
              /\ auth_server w' = []
              /\ api_server w' = []
              /\ self w' = example_client
              /\ entry_data w' = example_entry_data)
    [GetInitialisationData; GetCurrentPower; GetMeterInfo].
Proof.
  cbn zeta.
  repeat constructor;
    match goal with
    | |- exists w', run ?op _ = _ /\ _ =>
        apply (read_other_status op
                 (example_world example_client 1010 [] [reply 503 "busy" None])
                 (with_ticks 1 (example_world example_client 1010 []
                                  [reply 503 "busy" None]))
                 {| status := 503; text := "busy"; json := None |} [])
    end;
    first [ reflexivity | vm_compute; discriminate | cbn; lia ].
Defined.

(** X3: an exception raised by the transport on the first GET (a timeout,
    a lost connection) comes out of the operation as it is; there is no
    second GET and no refresh. *)
Theorem read_transport_failure (op : read_operation) (w w1 : world)
    (e : exn) (rest : list outcome) :
  _ensure_valid_token w = (Ok tt, w1) ->
  timedelta_minutes 5 <= utcnow w ->
  api_server w1 = Fails e :: rest ->
  exists w',
    run op w = (Raise e, w')
    /\ sent w' = (sent w1 ++ [get_request (url_of op w) (access_token (self w1))])%list
    /\ auth_server w' = auth_server w1
    /\ api_server w' = rest
    /\ self w' = self w1.
Proof.
  intros He Hu Hq.
  pose proof (ensure_valid_token_utcnow _ _ _ He) as Hut.
  rewrite (run_after_token_check op w w1 He).
  rewrite (after_token_check_answer op w1 (Fails e) rest)
    by (rewrite ?Hut; assumption).
  rewrite (url_of_frame op w w1 Hut).
  eexists. split; [reflexivity|]. repeat split.
Qed.

Lemma read_transport_failure_witness :
  let w := example_world example_client 1010 []
             [Fails TimeoutError; reply 200 "" (Some example_payload)] in
  Forall (fun op =>
            exists w',
              run op w = (Raise TimeoutError, w')
              /\ sent w' = [get_request (url_of op w) (PyStr "tok")]
              /\ auth_server w' = []
              /\ api_server w' = [reply 200 "" (Some example_payload)]
              /\ self w' = example_client)
    [GetInitialisationData; GetCurrentPower; GetMeterInfo].
Proof.
  cbn zeta.
  repeat constructor;
    match goal with
    | |- exists w', run ?op _ = _ /\ _ =>
        apply (read_transport_failure op
                 (example_world example_client 1010 []
                    [Fails TimeoutError; reply 200 "" (Some example_payload)])
                 (with_ticks 1 (example_world example_client 1010 []
                    [Fails TimeoutError; reply 200 "" (Some example_payload)]))
                 TimeoutError [reply 200 "" (Some example_payload)])
    end;
    first [ reflexivity | vm_compute; discriminate ].
Defined.

(** X4: with a token that passes the local check, a read operation whose
    first answer is a 200 with a JSON body sends exactly one request, a GET
    to its URL with the stored access token as bearer, and returns the body
    ([get_initialisation_data] and [get_meter_info] return it unchanged,
    [get_current_power] what [latest_power_reading] makes of it); nothing
    goes to the authentication host, the client and the persisted record
    are untouched. *)
Theorem read_first_200 (op : read_operation) (w : world) (E : Z)
    (r : ClientResponse) (rest : list outcome) (data : pyobj) :
  locally_valid (self w) E (clock w (ticks w)) ->
  timedelta_minutes 5 <= utcnow w ->
  api_server w = Responds r :: rest ->
  status r = 200 ->
  json r = Some data ->
  exists w',
    run op w = (payload_of op data, w')
    /\ sent w' = (sent w ++ [get_request (url_of op w) (access_token (self w))])%list
    /\ auth_server w' = auth_server w
    /\ api_server w' = rest
    /\ self w' = self w
    /\ entry_data w' = entry_data w.
Proof.
  intros V Hu Hq Hs Hj.
  rewrite (run_after_token_check op w _ (ensure_valid_token_locally_valid w E V)).
  rewrite (after_token_check_answer op _ (Responds r) rest)
    by first [exact Hu | exact Hq].
  rewrite Hs. cbn [Z.eqb Pos.eqb]. rewrite (on_200_json op r data _ Hj).
  eexists. split; [reflexivity|]. repeat split.
Qed.

Lemma read_first_200_witness :
  let w := example_world example_client 1010 [] [reply 200 "" (Some example_payload)] in
  Forall (fun op =>
            exists w',
              run op w = (payload_of op example_payload, w')
              /\ sent w' = [get_request (url_of op w) (PyStr "tok")]
              /\ auth_server w' = []
              /\ api_server w' = []
              /\ self w' = example_client
              /\ entry_data w' = example_entry_data)
    [GetInitialisationData; GetCurrentPower; GetMeterInfo].
Proof.
  cbn zeta.
  repeat constructor;
    match goal with
    | |- exists w', run ?op _ = _ /\ _ =>
        apply (read_first_200 op
                 (example_world example_client 1010 []
                    [reply 200 "" (Some example_payload)])
                 3600
                 {| status := 200; text := ""; json := Some example_payload |}
                 [] example_payload)
    end;
    first [ reflexivity
          | repeat split; first [ lia | vm_compute; discriminate ]
          | vm_compute; discriminate ].
Defined.

(** ** What the token check sends *)

Lemma is_token_expired_state (w : world) :
  let w' := snd (_is_token_expired w) in
  sent w' = sent w /\ self w' = self w /\ auth_server w' = auth_server w
  /\ entry_data w' = entry_data w.
Proof.
  cbn zeta. unfold _is_token_expired, get_self, lift, mbind, M_bind.
  destruct (negb _ || negb _); [repeat split|].
  destruct (float_add _ _); repeat split.
Qed.

Lemma update_tokens_sent (o : pyobj) (w : world) :
  sent (snd (_update_tokens_in_config_entry o w)) = sent w.
Proof.
  apply (respects_update_tokens (fun a b => sent b = sent a)); try reflexivity.
  intros w1 w2 w3 H1 H2. now rewrite H2.
Qed.

Lemma refresh_traffic (w : world) :
  let w' := snd (refresh_access_token w) in
  sent w' = sent w \/ sent w' = (sent w ++ [refresh_request (self w)])%list.
Proof.
  cbn zeta. unfold refresh_access_token, get_self.
  unfold mbind, M_bind, _LOGGER, session_post, response_json, raise, mret, M_ret.
  cbn -[_update_tokens_in_config_entry].
  destruct (truthy (refresh_token (self w))); cbn -[_update_tokens_in_config_entry];
    [|left; reflexivity].
  right.
  destruct (auth_server w) as [|[r|e] rest]; try reflexivity.
  cbn -[_update_tokens_in_config_entry].
  destruct (status r =? 200)%Z; [|reflexivity].
  destruct (json r) as [o|]; [|reflexivity].
  cbn -[_update_tokens_in_config_entry].
  match goal with
  | |- context [_update_tokens_in_config_entry o ?W] =>
      pose proof (update_tokens_sent o W) as Hs;
      destruct (_update_tokens_in_config_entry o W) as [[[]|ex] w3]
  end; cbn in Hs |- *; exact Hs.
Qed.

Lemma ensure_valid_token_traffic (w : world) :
  let w' := snd (_ensure_valid_token w) in
  sent w' = sent w \/ sent w' = (sent w ++ [refresh_request (self w)])%list.
Proof.
  cbn zeta. unfold _ensure_valid_token, get_self.
  unfold mbind, M_bind, _LOGGER, try_except, raise, mret, M_ret.
  cbn -[refresh_access_token _is_token_expired].
  destruct (truthy (access_token (self w)));
    cbn -[refresh_access_token _is_token_expired]; [|left; reflexivity].
  destruct (is_token_expired_state w) as (Hs & Hc & _).
  destruct (_is_token_expired w) as [[[|]|e] w1]; cbn [snd] in Hs, Hc;
    cbn -[refresh_access_token]; [|left; exact Hs|left; exact Hs].
  match goal with
  | |- context [refresh_access_token ?W] =>
      pose proof (refresh_traffic W) as Ht;
      destruct (refresh_access_token W) as [[o|ex] w3]
  end; cbn in Ht |- *; rewrite Hs, Hc in Ht; exact Ht.
Qed.

(** X5: [_ensure_valid_token] sends nothing, or exactly one request: the
    POST of [{method: "refresh", refresh_token}] to the authentication URL.
    It never sends a GET, takes no answer off the API host's queue, and
    leaves the clock and the instant [utcnow] alone. *)
Theorem ensure_valid_token_sends_one_post_at_most (w : world) :
  let w' := snd (_ensure_valid_token w) in
  (sent w' = sent w
   \/ sent w' = (sent w ++ [{| req_method := POST; req_url := AUTH_URL;
                               req_bearer := None;
                               req_json := Some (PyDict
                                 (<["method" := PyStr "refresh"]>
                                  {["refresh_token" := refresh_token (self w)]})) |}])%list)
  /\ api_server w' = api_server w
  /\ clock w' = clock w
  /\ utcnow w' = utcnow w.
Proof.
  cbn zeta. split; [apply ensure_valid_token_traffic|].
  destruct (frame_ensure_valid_token w) as (H1 & H2 & H3). now repeat split.
Qed.

(** ** Read operations with a token that fails the local check *)

Lemma is_token_expired_locally_expired (w : world) (E : Z) :
  locally_expired (self w) E (clock w (ticks w)) ->
  _is_token_expired w = (Ok true, with_ticks (S (ticks w)) w).
Proof.
  intros (Ha & He & HE & Hnow).
  rewrite (is_token_expired_int w E Ha He HE). do 2 f_equal.
  apply Qlt_bool_iff. lra.
Qed.

Lemma ensure_valid_token_locally_expired (w : world) (E : Z) :
  locally_expired (self w) E (clock w (ticks w)) ->
  _ensure_valid_token w =
    match refresh_access_token (before_refresh w) with
    | (Ok _, w3) => (Ok tt, w3)
    | (Raise ex, w3) =>
        (Raise ex, log_line ERROR "Failed to refresh access token: %s" [LogExn ex] w3)
    end.
Proof.
  intros V. destruct V as (Ha & V').
  apply (ensure_valid_token_expired w _ Ha).
  apply (is_token_expired_locally_expired w E). now split.
Qed.

(** X6: when the token fails the local check and the refresh is answered
    with a status other than 200, each read operation fails with the error
    of the refresh ("Token refresh failed: <status>"); the only request
    sent is the refresh POST, the API host is never asked, and the client
    and the persisted record stay as they were. *)
Theorem read_blocked_by_failed_refresh (op : read_operation) (w : world) (E : Z)
    (r : ClientResponse) (rest : list outcome) :
  locally_expired (self w) E (clock w (ticks w)) ->
  truthy (refresh_token (self w)) = true ->
  auth_server w = Responds r :: rest ->
  status r <> 200 ->
  exists w',
    run op w = (Raise (ClientResponseError AUTH_URL (status r)
                         ("Token refresh failed: " +:+ str_int (status r))), w')
    /\ sent w' = (sent w ++ [refresh_request (self w)])%list
    /\ api_server w' = api_server w
    /\ self w' = self w
    /\ entry_data w' = entry_data w.
Proof.
  intros V Ht Hq Hs.
  eexists. split.
  - apply run_token_check_raises.
    rewrite (ensure_valid_token_locally_expired w E V).
    rewrite (refresh_non_200 (before_refresh w) r rest Ht Hq Hs). reflexivity.
  - repeat split.
Qed.

Lemma read_blocked_by_failed_refresh_witness :
  let w := example_world example_client 5000
             [reply 401 "revoked" None] [reply 200 "" (Some example_payload)] in
  Forall (fun op =>
            exists w',
              run op w = (Raise (ClientResponseError AUTH_URL 401
                                   "Token refresh failed: 401"), w')
              /\ sent w' = [refresh_request example_client]
              /\ api_server w' = [reply 200 "" (Some example_payload)]
              /\ self w' = example_client
              /\ entry_data w' = example_entry_data)
    [GetInitialisationData; GetCurrentPower; GetMeterInfo].
Proof.
  cbn zeta.
  repeat constructor;
    match goal with
    | |- exists w', run ?op _ = _ /\ _ =>
        apply (read_blocked_by_failed_refresh op
                 (example_world example_client 5000
                    [reply 401 "revoked" None] [reply 200 "" (Some example_payload)])
                 3600
                 {| status := 401; text := "revoked"; json := None |} [])
    end;
    first [ reflexivity
          | repeat split; first [ lia | vm_compute; reflexivity ]
          | cbn; lia ].
Defined.

(** X7: when the token fails the local check and the refresh succeeds (the
    client holding its entry), each read operation sends the refresh POST
    and then one GET whose bearer is the [access_token] of the refresh
    answer ([None] when the answer has no such key: the token is not
    looked at again before it is used); the new tokens are in the client
    and in the persisted record when the GET is answered. *)
Theorem read_after_proactive_refresh (op : read_operation) (w : world) (E : Z)
    (e : ConfigEntry) (ra r : ClientResponse) (rest_auth rest : list outcome)
    (d : gmap string pyobj) (data : pyobj) :
  locally_expired (self w) E (clock w (ticks w)) ->
  truthy (refresh_token (self w)) = true ->
  config_entry (self w) = Some e ->
  auth_server w = Responds ra :: rest_auth ->
  status ra = 200 -> json ra = Some (PyDict d) ->
  timedelta_minutes 5 <= utcnow w ->
  api_server w = Responds r :: rest ->
  status r = 200 -> json r = Some data ->
  exists w',
    run op w = (payload_of op data, w')
    /\ sent w' = (sent w ++ [refresh_request (self w);
                             get_request (url_of op w)
                               (default PyNone (d !! "access_token"))])%list
    /\ access_token (self w') = default PyNone (d !! "access_token")
    /\ refresh_token (self w') = default PyNone (d !! "refresh_token")
    /\ expires_in (self w') = default PyNone (d !! "expires_in")
    /\ entry_data w' = merged_entry_data d (entry_data w)
    /\ auth_server w' = rest_auth
    /\ api_server w' = rest.
Proof.
  intros V Ht Hc Hqa Hsa Hja Hu Hq Hs Hj.
  assert (He : exists w1,
            _ensure_valid_token w = (Ok tt, w1)
            /\ sent w1 = (sent w ++ [refresh_request (self w)])%list
            /\ self w1 = refreshed_client d (clock w (S (ticks w)))
                           (clock w (S (S (ticks w)))) (self w)
            /\ entry_data w1 = merged_entry_data d (entry_data w)
            /\ auth_server w1 = rest_auth
            /\ api_server w1 = api_server w
            /\ utcnow w1 = utcnow w).
  { eexists. split.
    - rewrite (ensure_valid_token_locally_expired w E V).
      rewrite (refresh_200_with_entry (before_refresh w) e ra rest_auth d Hc Ht Hqa Hsa Hja).
      reflexivity.
    - repeat split. }
  destruct He as (w1 & He & S1 & C1 & D1 & A1 & P1 & U1).
  rewrite (run_after_token_check op w w1 He).
  rewrite (after_token_check_answer op w1 (Responds r) rest)
    by (rewrite ?U1, ?P1; assumption).
  rewrite Hs. cbn [Z.eqb Pos.eqb]. rewrite (on_200_json op r data _ Hj).
  rewrite (url_of_frame op w w1 U1).
  eexists. split; [reflexivity|].
  unfold after_get. cbn. rewrite S1, C1, D1, A1. cbn.
  repeat split. now rewrite <- app_assoc.
Qed.

Lemma read_after_proactive_refresh_witness :
  let w := example_world example_client 5000
             [reply 200 "" (Some (PyDict example_tokens))]
             [reply 200 "" (Some example_payload)] in
  Forall (fun op =>
            exists w',
              run op w = (payload_of op example_payload, w')
              /\ sent w' = [refresh_request example_client;
                            get_request (url_of op w) (PyStr "tok2")]
              /\ access_token (self w') = PyStr "tok2"
              /\ refresh_token (self w') = PyStr "ref2"
              /\ expires_in (self w') = PyInt 7200
              /\ entry_data w' = merged_entry_data example_tokens example_entry_data
              /\ auth_server w' = []
              /\ api_server w' = [])
    [GetInitialisationData; GetCurrentPower; GetMeterInfo].
Proof.
  cbn zeta.
  repeat constructor;
    match goal with
    | |- exists w', run ?op _ = _ /\ _ =>
        apply (read_after_proactive_refresh op
                 (example_world example_client 5000
                    [reply 200 "" (Some (PyDict example_tokens))]
                    [reply 200 "" (Some example_payload)])
                 3600 the_config_entry
                 {| status := 200; text := ""; json := Some (PyDict example_tokens) |}
                 {| status := 200; text := ""; json := Some example_payload |}
                 [] [] example_tokens example_payload)
    end;
    first [ reflexivity
          | repeat split; first [ lia | vm_compute; reflexivity ]
          | vm_compute; discriminate ].
Defined.

(** ** How much a read operation can send *)

Lemma traffic_within_nil (g p : nat) (url : string) : traffic_within g p url [].
Proof. repeat split; cbn; [lia|lia|constructor]. Qed.

Lemma traffic_within_get (g p : nat) (url : string) (token : pyobj) (l : list request) :
  traffic_within g p url l ->
  traffic_within (S g) p url (get_request url token :: l).
Proof.
  unfold traffic_within, gets, posts. intros (Hg & Hp & Hf).
  repeat split; cbn; [lia|lia|].
  constructor; [reflexivity|exact Hf].
Qed.

Lemma traffic_within_post (g p : nat) (url : string) (c : IONAEnergyAPI)
    (l : list request) :
  traffic_within g p url l ->
  traffic_within g (S p) url (refresh_request c :: l).
Proof.
  unfold traffic_within, gets, posts. intros (Hg & Hp & Hf).
  repeat split; cbn; [lia|lia|].
  constructor; [reflexivity|exact Hf].
Qed.

Lemma traffic_within_weaken (g g' p p' : nat) (url : string) (l : list request) :
  (g <= g')%nat -> (p <= p')%nat ->
  traffic_within g p url l -> traffic_within g' p' url l.
Proof. intros ? ? (Hg & Hp & Hf). repeat split; [lia|lia|exact Hf]. Qed.

Lemma on_200_state (op : read_operation) (r : ClientResponse) (w : world) :
  snd (on_200 op r w) = w.
Proof.
  unfold on_200, response_json, mbind, M_bind, lift.
  destruct (json r); [|reflexivity]. cbn. now destruct (payload_of op p).
Qed.

Lemma retry_after_401_traffic (op : read_operation) (url : string) (w : world) :
  exists l, sent (snd (retry_after_401 op url w)) = (sent w ++ l)%list
            /\ traffic_within 1 1 url l.
Proof.
  unfold retry_after_401.
  unfold mbind at 1, M_bind at 1, _LOGGER. cbn [fst snd].
  set (W := with_logged _ w).
  pose proof (ensure_valid_token_traffic W) as Ht. cbn zeta in Ht.
  unfold mbind at 1, M_bind at 1.
  destruct (_ensure_valid_token W) as [[[]|ex] w2]; cbn [snd] in Ht; cbn [snd].
  - unfold mbind, M_bind, get_self, session_get, raise.
    cbn -[on_200 status_error].
    assert (Hl : exists l2,
              sent w2 = (sent w ++ l2)%list
              /\ traffic_within 0 1 url l2).
    { destruct Ht as [Ht|Ht]; rewrite Ht.
      - exists []. split; [now rewrite app_nil_r|apply traffic_within_nil].
      - eexists. split; [reflexivity|].
        apply traffic_within_post, traffic_within_nil. }
    destruct Hl as (l2 & Hs2 & T2).
    assert (Hfin : forall x : list request,
              x = (sent w2 ++ [get_request url (access_token (self w2))])%list ->
              exists l, x = (sent w ++ l)%list /\ traffic_within 1 1 url l).
    { intros x Hx. exists (l2 ++ [get_request url (access_token (self w2))])%list.
      split; [now rewrite Hx, Hs2, <- app_assoc|].
      destruct T2 as (Hg & Hp & Hf). unfold traffic_within, gets, posts in *.
      rewrite !List.filter_app, !length_app. cbn.
      repeat split; [lia|lia|].
      apply Forall_app. split; [exact Hf|]. repeat constructor. }
    destruct (api_server w2) as [|[r2|e2] rest2]; cbn -[on_200 status_error];
      try (apply Hfin; reflexivity).
    destruct (status r2 =? 200)%Z; [|apply Hfin; reflexivity].
    rewrite on_200_state. apply Hfin. reflexivity.
  - destruct Ht as [Ht|Ht]; rewrite Ht.
    + exists []. split; [now rewrite app_nil_r|apply traffic_within_nil].
    + eexists. split; [reflexivity|].
      apply traffic_within_post, traffic_within_nil.
Qed.

Lemma after_token_check_traffic (op : read_operation) (w : world) :
  exists l, sent (snd (after_token_check op w)) = (sent w ++ l)%list
            /\ traffic_within 2 1 (url_of op w) l.
Proof.
  unfold after_token_check, get_self.
  unfold mbind at 1, M_bind at 1.
  destruct (build_url_cases op w) as [Hb|(e & Hb)].
  2: { rewrite (bind_raise _ _ _ _ _ Hb). exists [].
       split; [now rewrite app_nil_r|apply traffic_within_nil]. }
  rewrite (bind_ok _ _ _ _ _ Hb).
  set (url := url_of op w).
  set (G := get_request url (access_token (self w))).
  assert (Hone : forall x : list request,
            x = (sent w ++ [G])%list ->
            exists l, x = (sent w ++ l)%list /\ traffic_within 2 1 url l).
  { intros x Hx. exists [G]. split; [exact Hx|].
    apply (traffic_within_weaken 1 2 0 1); [lia|lia|].
    apply traffic_within_get, traffic_within_nil. }
  unfold mbind, M_bind, session_get, raise.
  cbn -[on_200 retry_after_401 status_error].
  destruct (api_server w) as [|[r|e] rest]; cbn -[on_200 retry_after_401 status_error];
    try (apply Hone; reflexivity).
  destruct (status r =? 200)%Z; [rewrite on_200_state; apply Hone; reflexivity|].
  destruct (status r =? 401)%Z; [|apply Hone; reflexivity].
  match goal with
  | |- context [retry_after_401 op url ?W] =>
      destruct (retry_after_401_traffic op url W) as (l & Hs & T)
  end.
  exists (G :: l). split.
  - rewrite Hs. cbn. now rewrite <- app_assoc.
  - now apply traffic_within_get.
Qed.

(** X8: whatever the two hosts answer, a read operation sends at most two
    GETs and at most two POSTs; every GET goes to the operation's URL and
    every POST to the authentication URL. *)
Theorem read_traffic_bound (op : read_operation) (w : world) :
  exists l,
    sent (snd (run op w)) = (sent w ++ l)%list
    /\ (length (gets l) <= 2)%nat
    /\ (length (posts l) <= 2)%nat
    /\ Forall (fun r => if is_get r then req_url r = url_of op w
                        else req_url r = AUTH_URL) l.
Proof.
  rewrite run_is_request_with_retry. unfold request_with_retry.
  pose proof (ensure_valid_token_traffic w) as Ht. cbn zeta in Ht.
  pose proof (frame_ensure_valid_token w) as (Hu & _).
  unfold mbind, M_bind.
  destruct (_ensure_valid_token w) as [[[]|ex] w1]; cbn [snd] in Ht, Hu.
  - destruct (after_token_check_traffic op w1) as (l & Hs & T).
    rewrite (url_of_frame op w w1 Hu) in T.
    destruct Ht as [Ht|Ht]; rewrite Ht in Hs.
    + exists l. split; [exact Hs|].
      apply (traffic_within_weaken 2 2 1 2); [lia|lia|exact T].
    + exists (refresh_request (self w) :: l). split.
      * rewrite Hs. now rewrite <- app_assoc.
      * now apply traffic_within_post.
  - cbn [snd]. destruct Ht as [Ht|Ht]; rewrite Ht.
    + exists []. split; [now rewrite app_nil_r|apply traffic_within_nil].
    + eexists. split; [reflexivity|].
      apply (traffic_within_weaken 0 2 1 2); [lia|lia|].
      apply traffic_within_post, traffic_within_nil.
Qed.

(** ** What [get_current_power] can return *)

Lemma py_eq_str_true (o : pyobj) (lit : string) :
  py_eq_str o lit = true -> o = PyStr lit.
Proof.
  destruct o; cbn; try discriminate.
  intros H. apply String.eqb_eq in H. now subst.
Qed.

Lemma latest_power_reading_inv (data o : pyobj) :
  latest_power_reading data = Ok o ->
  exists d dd rs ld,
    data = PyDict d
    /\ d !! "status" = Some (PyStr "ok")
    /\ d !! "data" = Some (PyDict dd)
    /\ dd !! "results" = Some (PyList rs)
    /\ last rs = Some (PyDict ld)
    /\ o = power_reading (default (PyInt 0) (ld !! "power"))
                         (default (PyStr "") (ld !! "timestamp")).
Proof.
  unfold latest_power_reading, py_get, py_getitem.
  unfold mbind, result_bind, mret, result_ret.
  destruct data as [| | | | | |d]; try discriminate.
  destruct (py_eq_str _ _) eqn:Hst; [|discriminate].
  apply py_eq_str_true in Hst.
  assert (Hst' : d !! "status" = Some (PyStr "ok"))
    by (destruct (d !! "status"); cbn in Hst; [now subst|discriminate]).
  clear Hst.
  destruct (d !! "data") as [[| | | | | |dd]|] eqn:Hd; cbn; try discriminate.
  destruct (dd !! "results") as [res|] eqn:Hr; cbn; [|discriminate].
  destruct (truthy res) eqn:Ht; [|discriminate].
  destruct res as [| | | |s| rs |dr]; cbn [py_getitem_last]; try discriminate.
  - destruct (last_char s); discriminate.
  - destruct (last rs) as [[| | | | | |ld]|] eqn:Hl; try discriminate.
    intros [= <-]. exists d, dd, rs, ld. repeat split; assumption.
Qed.

Lemma run_ok_from_payload (op : read_operation) (w : world) (o : pyobj) :
  fst (run op w) = Ok o -> exists data, payload_of op data = Ok o.
Proof.
  rewrite run_is_request_with_retry.
  unfold request_with_retry, after_token_check, retry_after_401, on_200.
  unfold mbind, M_bind, get_self, session_get, _LOGGER, response_json, raise, lift,
    mret, M_ret.
  destruct (_ensure_valid_token w) as [[[]|ex] w1]; cbn [fst]; [|discriminate].
  destruct (build_url op w1) as [[url|ex] w1']; cbn [fst]; [|discriminate].
  cbn -[_ensure_valid_token payload_of status_error].
  destruct (api_server w1') as [|[r|ex] rest];
    cbn -[_ensure_valid_token payload_of status_error]; try discriminate.
  destruct (status r =? 200)%Z.
  { destruct (json r) as [data|]; cbn -[payload_of]; [|discriminate].
    intros H. now exists data. }
  destruct (status r =? 401)%Z; cbn -[_ensure_valid_token payload_of status_error];
    [|discriminate].
  destruct (_ensure_valid_token _) as [[[]|ex] w2];
    cbn -[payload_of status_error]; [|discriminate].
  destruct (api_server w2) as [|[r2|ex] rest2];
    cbn -[payload_of status_error]; try discriminate.
  destruct (status r2 =? 200)%Z; cbn -[payload_of status_error]; [|discriminate].
  destruct (json r2) as [data|]; cbn -[payload_of]; [|discriminate].
  intros H. now exists data.
Qed.



(** ** [authenticate] beyond the success of the call *)

(** X10: an [authenticate] call answered with a status other than 200
    raises a [ClientResponseError] with that status and the message
    "Authentication failed: <status>"; the client is left exactly as it
    was, timestamps included (the clock is not even read), and so is the
    persisted record. *)
Theorem authenticate_failure (w : world) (username password : string)
    (r : ClientResponse) (rest : list outcome) :
  auth_server w = Responds r :: rest ->
  status r <> 200 ->
  exists w',
    authenticate username password w =
      (Raise (ClientResponseError AUTH_URL (status r)
                ("Authentication failed: " +:+ str_int (status r))), w')
    /\ self w' = self w
    /\ ticks w' = ticks w
    /\ entry_data w' = entry_data w
    /\ sent w' = (sent w ++ [login_request username password])%list.
Proof.
  intros Hq Hs. apply Z.eqb_neq in Hs.
  unfold authenticate, session_post, raise, mbind, M_bind. cbn.
  rewrite Hq, Hs. eexists. split; [reflexivity|]. repeat split.
Qed.

Lemma authenticate_failure_witness :
  let w := example_world example_client 5000 [reply 403 "Forbidden" None] [] in
  exists w',
    authenticate "user" "wrong" w =
      (Raise (ClientResponseError AUTH_URL 403 "Authentication failed: 403"), w')
    /\ self w' = example_client
    /\ ticks w' = 0%nat
    /\ entry_data w' = example_entry_data
    /\ sent w' = [login_request "user" "wrong"].
Proof.
  cbn zeta.
  apply (authenticate_failure
           (example_world example_client 5000 [reply 403 "Forbidden" None] [])
           "user" "wrong" {| status := 403; text := "Forbidden"; json := None |} []).
  - reflexivity.
  - cbn. lia.
Defined.

(** X11: a successful [authenticate] does not log the client in: on a
    client that has no access token, the read operations that follow still
    raise "No access token available" and send nothing. *)
Theorem authenticate_does_not_log_in (w : world) (username password : string)
    (r : ClientResponse) (rest : list outcome) (o : pyobj) :
  truthy (access_token (self w)) = false ->
  auth_server w = Responds r :: rest ->
  status r = 200 ->
  json r = Some o ->
  exists w',
    authenticate username password w = (Ok o, w')
    /\ forall op : read_operation,
         run op w' = (Raise (ValueError "No access token available"), w').
Proof.
  intros Ha Hq Hs Hj. eexists.
  split; [apply (authenticate_200 w username password r rest o Hq Hs Hj)|].
  intros op. apply run_token_check_raises, ensure_valid_token_no_token. exact Ha.
Qed.

Lemma authenticate_does_not_log_in_witness :
  let w := example_world example_client_no_token 5000
             [reply 200 "" (Some (PyDict example_tokens))]
             [reply 200 "" (Some example_payload)] in
  exists w',
    authenticate "user" "secret" w = (Ok (PyDict example_tokens), w')
    /\ forall op : read_operation,
         run op w' = (Raise (ValueError "No access token available"), w').
Proof.
  cbn zeta.
  apply (authenticate_does_not_log_in
           (example_world example_client_no_token 5000
              [reply 200 "" (Some (PyDict example_tokens))]
              [reply 200 "" (Some example_payload)])
           "user" "secret"
           {| status := 200; text := ""; json := Some (PyDict example_tokens) |} []
           (PyDict example_tokens)).
  - reflexivity.
  - reflexivity.
  - reflexivity.
  - reflexivity.
Defined.

(** ** [refresh_access_token] beyond the success of the call *)

Lemma refresh_success_world (w w' : world) (e : ConfigEntry) (d : gmap string pyobj) :
  config_entry (self w) = Some e ->
  refresh_access_token w = (Ok (PyDict d), w') ->
  self w' = refreshed_client d (clock w (ticks w)) (clock w (S (ticks w))) (self w)
  /\ entry_data w' = merged_entry_data d (entry_data w)
  /\ clock w' = clock w
  /\ ticks w' = S (S (ticks w)).
Proof.
  intros Hc H.
  destruct (refresh_success_inv w w' e _ Hc H) as (r & rest & d' & Ht & Hq & Hs & Hj & Heq).
  injection Heq as <-.
  rewrite (refresh_200_with_entry w e r rest d Hc Ht Hq Hs Hj) in H.
  injection H as <-. repeat split.
Qed.

(** X12: when the 200 answer to a refresh has no [access_token] key, the
    client's access token becomes [None] and [None] is what is persisted
    under that key; every read operation after that raises "No access
    token available" without sending anything. *)
Theorem refresh_without_access_token_key (w w' : world) (e : ConfigEntry)
    (d : gmap string pyobj) :
  config_entry (self w) = Some e ->
  refresh_access_token w = (Ok (PyDict d), w') ->
  d !! "access_token" = None ->
  access_token (self w') = PyNone
  /\ entry_data w' !! CONF_ACCESS_TOKEN = Some PyNone
  /\ forall op : read_operation,
       run op w' = (Raise (ValueError "No access token available"), w').
Proof.
  intros Hc H Hd.
  destruct (refresh_success_world w w' e d Hc H) as (Hs & He & _).
  assert (Ha : access_token (self w') = PyNone) by (rewrite Hs; cbn; now rewrite Hd).
  split; [exact Ha|]. split.
  - rewrite He. unfold merged_entry_data.
    rewrite !lookup_insert_ne by discriminate.
    rewrite Hd. apply lookup_insert_eq.
  - intros op. apply run_token_check_raises, ensure_valid_token_no_token.
    now rewrite Ha.
Qed.

Lemma refresh_without_access_token_key_witness :
  let w := example_world example_client 5000
             [reply 200 "" (Some (PyDict example_tokens_no_access))] [] in
  let w' := snd (refresh_access_token w) in
  access_token (self w') = PyNone
  /\ entry_data w' !! CONF_ACCESS_TOKEN = Some PyNone
  /\ forall op : read_operation,
       run op w' = (Raise (ValueError "No access token available"), w').
Proof.
  cbn zeta.
  apply (refresh_without_access_token_key
           (example_world example_client 5000
              [reply 200 "" (Some (PyDict example_tokens_no_access))] [])
           _ the_config_entry example_tokens_no_access).
  - reflexivity.
  - apply pair_fst_snd. vm_compute. reflexivity.
  - vm_compute. reflexivity.
Defined.





(** ** Setting the client up from the stored entry *)

Lemma client_setup_world (w : world) : client_setup w = (Ok tt, set_up_world w).
Proof. reflexivity. Qed.

Lemma async_setup_entry_world (forward : M unit) (w : world) :
  async_setup_entry forward w = finish_setup (forward (set_up_world w)).
Proof.
  unfold async_setup_entry, __init__, set_config_entry, config_entry_data, time_time,
    put_self, get_self, mbind, M_bind.
  cbn.
  match goal with
  | |- context [forward ?W] => change W with (set_up_world w)
  end.
  now destruct (forward (set_up_world w)) as [[[]|ex] w'].
Qed.

(** X15: tokens survive a restart: when the set-up runs on the record that
    a successful refresh has persisted, the platforms are handed a client
    that holds the entry and has the same access token, refresh token and
    [expires_in] as the client that did the refresh. *)
Theorem tokens_survive_restart (forward : M unit) (w w' : world) (e : ConfigEntry)
    (o : pyobj) :
  config_entry (self w) = Some e ->
  refresh_access_token w = (Ok o, w') ->
  exists w0,
    async_setup_entry forward w' = finish_setup (forward w0)
    /\ access_token (self w0) = access_token (self w')
    /\ refresh_token (self w0) = refresh_token (self w')
    /\ expires_in (self w0) = expires_in (self w')
    /\ config_entry (self w0) = Some the_config_entry
    /\ entry_data w0 = entry_data w'.
Proof.
  intros Hc H.
  destruct (refresh_success_inv w w' e o Hc H) as (r & rest & d & _ & _ & _ & _ & ->).
  destruct (refresh_success_world w w' e d Hc H) as (Hs & He & _).
  exists (set_up_world w'). split; [apply async_setup_entry_world|].
  cbn. rewrite Hs, He. unfold merged_entry_data. cbn.
  repeat split.
  - rewrite !lookup_insert_ne by discriminate. now rewrite lookup_insert_eq.
  - rewrite lookup_insert_ne by discriminate. now rewrite lookup_insert_eq.
  - now rewrite lookup_insert_eq.
Qed.

Lemma tokens_survive_restart_witness :
  let w := example_world example_client 5000
             [reply 200 "" (Some (PyDict example_tokens))] [] in
  let w' := snd (refresh_access_token w) in
  exists w0,
    async_setup_entry no_platforms w' = finish_setup (no_platforms w0)
    /\ access_token (self w0) = access_token (self w')
    /\ refresh_token (self w0) = refresh_token (self w')
    /\ expires_in (self w0) = expires_in (self w')
    /\ config_entry (self w0) = Some the_config_entry
    /\ entry_data w0 = entry_data w'.
Proof.
  cbn zeta.
  apply (tokens_survive_restart no_platforms
           (example_world example_client 5000
              [reply 200 "" (Some (PyDict example_tokens))] [])
           _ the_config_entry (PyDict example_tokens)).
  - reflexivity.
  - apply pair_fst_snd. vm_compute. reflexivity.
Defined.



(** X17: after a set-up from a stored entry, a token that the API host no
    longer accepts is not replaced while it passes the local check: on
    [[401, 401]] a read operation sends its GET twice with the stored
    token, sends nothing to the authentication host and fails with the
    second 401. *)
Theorem stale_token_after_setup (op : read_operation) (w : world) (a : pyobj) (E : Z)
    (r1 r2 : ClientResponse) (rest : list outcome) :
  entry_data w !! CONF_ACCESS_TOKEN = Some a ->
  truthy a = true ->
  entry_data w !! CONF_EXPIRES_IN = Some (PyInt E) ->
  E <> 0 ->
  let w0 := set_up_world w in
  (clock w (S (S (ticks w))) <= clock w (ticks w) + inject_Z E - 300)%Q ->
  (clock w (S (S (S (ticks w)))) <= clock w (ticks w) + inject_Z E - 300)%Q ->
  timedelta_minutes 5 <= utcnow w ->
  api_server w = Responds r1 :: Responds r2 :: rest ->
  status r1 = 401 -> status r2 = 401 ->
  client_setup w = (Ok tt, w0)
  /\ exists w',
       run op w0 = (Raise (ClientResponseError (url_of op w) 401
                             (retry_failure_message op +:+ "401")), w')
       /\ sent w' = (sent w ++ [get_request (url_of op w) a;
                                get_request (url_of op w) a])%list
       /\ auth_server w' = auth_server w.
Proof.
  intros Ha Hta He HE w0 H1 H2 Hu Hq Hs1 Hs2.
  split; [reflexivity|].
  assert (V : forall now, (now <= clock w (ticks w) + inject_Z E - 300)%Q ->
                          locally_valid (self w0) E now).
  { intros now Hn. split; [|split; [|split]].
    - cbn. now rewrite Ha.
    - cbn. now rewrite He.
    - exact HE.
    - exact Hn. }
  destruct (retry_second_failure op w0 E r1 r2 rest) as (w' & Hr & Hsent & Hauth & _);
    try assumption.
  - apply V. exact H1.
  - apply V. exact H2.
  - rewrite Hs2. discriminate.
  - exists w'. rewrite Hs2 in Hr. cbn in Hsent. rewrite Ha in Hsent. cbn in Hsent.
    rewrite (url_of_frame op w w0 eq_refl) in Hr, Hsent.
    split; [exact Hr|]. split; [exact Hsent|exact Hauth].
Qed.

Lemma stale_token_after_setup_witness :
  let w := example_world example_client_no_token 90000 []
             [reply 401 "Unauthorized" None; reply 401 "Unauthorized" None] in
  Forall (fun op =>
            client_setup w = (Ok tt, set_up_world w)
            /\ exists w',
                 run op (set_up_world w) =
                   (Raise (ClientResponseError (url_of op w) 401
                             (retry_failure_message op +:+ "401")), w')
                 /\ sent w' = [get_request (url_of op w) (PyStr "tok");
                               get_request (url_of op w) (PyStr "tok")]
                 /\ auth_server w' = [])
    [GetInitialisationData; GetCurrentPower; GetMeterInfo].
Proof.
  cbn zeta.
  repeat first [apply List.Forall_cons | apply List.Forall_nil]; cbn beta;
    match goal with
    | |- _ /\ exists w', run ?op _ = _ /\ _ =>
        apply (stale_token_after_setup op
                 (example_world example_client_no_token 90000 []
                    [reply 401 "Unauthorized" None; reply 401 "Unauthorized" None])
                 (PyStr "tok") 3600
                 {| status := 401; text := "Unauthorized"; json := None |}
                 {| status := 401; text := "Unauthorized"; json := None |} [])
    end;
    first [ reflexivity | lia | vm_compute; reflexivity | vm_compute; discriminate ].
Defined.

(** ** The sensors *)

Lemma on_power_data_reading (p t : pyobj) (s : SensorEntity) :
  IONAEnergyPowerSensor.on_power_data (power_reading p t) s =
    Ok (sensor_update p true
          DEBUG "iONA Energy current power: %s W (timestamp: %s)"
          [SLogObj p; SLogObj t] s).
Proof.
  unfold IONAEnergyPowerSensor.on_power_data, power_reading, py_in, py_getitem, py_get,
    truthy.
  rewrite bool_decide_eq_false_2 by apply insert_non_empty.
  cbn [negb]. unfold mbind, result_bind, mret, result_ret.
  rewrite lookup_insert_eq.
  rewrite bool_decide_eq_true_2 by (eexists; reflexivity).
  rewrite lookup_insert_ne by discriminate. rewrite lookup_insert_eq.
  reflexivity.
Qed.

(** X18: the power sensor after [async_update]: when [get_current_power]
    returns, the sensor is available and its value is the [power] of the
    reading, logged at debug level with the timestamp; when it raises, the
    sensor is unavailable with value [None] and the exception is logged as
    an error.  The branch that warns "No power data available" is never
    taken, since a returned reading always has a [power] key. *)
Theorem power_sensor_update (s : SensorEntity) (w : world) :
  snd (IONAEnergyPowerSensor.async_update s w) = snd (get_current_power w)
  /\ match fst (get_current_power w) with
     | Ok o =>
         exists p t,
           o = power_reading p t
           /\ fst (IONAEnergyPowerSensor.async_update s w) =
                sensor_update p true
                  DEBUG "iONA Energy current power: %s W (timestamp: %s)"
                  [SLogObj p; SLogObj t] s
     | Raise ex =>
         fst (IONAEnergyPowerSensor.async_update s w) =
           sensor_update PyNone false
             ERROR "Error updating iONA Energy power sensor: %s" [SLogExn ex] s
     end.
Proof.
  unfold IONAEnergyPowerSensor.async_update.
  pose proof (run_ok_from_payload GetCurrentPower w) as Hp. cbn [run payload_of] in Hp.
  destruct (get_current_power w) as [[o|ex] w'].
  - destruct (Hp o eq_refl) as (data & Hd).
    destruct (latest_power_reading_inv data o Hd) as (d & dd & rs & ld & _ & _ & _ & _ & _ & ->).
    rewrite on_power_data_reading. cbn [fst snd]. split; [reflexivity|].
    eexists _, _. split; reflexivity.
  - cbn [fst snd]. split; reflexivity.
Qed.

(** X19: the connection sensor with a token that passes the local check
    and a first answer of status 200: it shows "Connected" and is available
    when the body of the answer decodes as JSON, and "Disconnected" and
    unavailable when it does not; one GET has been sent either way. *)
Theorem connection_sensor_first_200 (s : SensorEntity) (w : world) (E : Z)
    (r : ClientResponse) (rest : list outcome) :
  locally_valid (self w) E (clock w (ticks w)) ->
  api_server w = Responds r :: rest ->
  status r = 200 ->
  let s' := fst (IONAEnergyConnectionSensor.async_update s w) in
  let w' := snd (IONAEnergyConnectionSensor.async_update s w) in
  _attr_native_value s' =
    PyStr (match json r with Some _ => "Connected" | None => "Disconnected" end)
  /\ _attr_available s' = (match json r with Some _ => true | None => false end)
  /\ sent w' = (sent w ++ [get_request "https://api.n2g-iona.net/v2/initialisation"
                             (access_token (self w))])%list.
Proof.
  intros V Hq Hs. cbn zeta. unfold IONAEnergyConnectionSensor.async_update.
  change (get_initialisation_data w) with (run GetInitialisationData w).
  rewrite (run_after_token_check _ w _ (ensure_valid_token_locally_valid w E V)).
  unfold after_token_check, build_url, get_self, session_get, mbind, M_bind, mret, M_ret.
  cbn -[on_200]. rewrite Hq, Hs. cbn -[on_200].
  destruct (json r) as [data|] eqn:Hj.
  - rewrite (on_200_json _ r data _ Hj). cbn. repeat split.
  - rewrite (on_200_not_json _ r _ Hj). cbn. repeat split.
Qed.

Lemma connection_sensor_first_200_witness :
  let w := example_world example_client 1010 [] [reply 200 "<html>" None] in
  let s' := fst (IONAEnergyConnectionSensor.async_update
                   IONAEnergyConnectionSensor.__init__ w) in
  let w' := snd (IONAEnergyConnectionSensor.async_update
                   IONAEnergyConnectionSensor.__init__ w) in
  _attr_native_value s' = PyStr "Disconnected"
  /\ _attr_available s' = false
  /\ sent w' = [get_request "https://api.n2g-iona.net/v2/initialisation" (PyStr "tok")].
Proof.
  cbn zeta.
  apply (connection_sensor_first_200 IONAEnergyConnectionSensor.__init__
           (example_world example_client 1010 [] [reply 200 "<html>" None])
           3600 {| status := 200; text := "<html>"; json := None |} []).
  - repeat split. lia. vm_compute. discriminate.
  - reflexivity.
  - reflexivity.
Defined.

(** ** One exchange, three operations *)

(** X20: [get_initialisation_data], [get_current_power] and
    [get_meter_info] are the same exchange (token check, GET, and on a 401
    one more token check and one more GET), apart from the URL, the three
    messages and what is made of a 200 body. *)
Theorem read_operations_share_one_exchange (op : read_operation) (w : world) :
  run op w =
    (_ensure_valid_token;;
     c ← get_self;
     url ← build_url op;
     response ← session_get url (access_token c);
     if (status response =? 200)%Z then
       data ← response_json response; lift (payload_of op data)
     else if (status response =? 401)%Z then
       _LOGGER DEBUG (log_401 op) [];;
       _ensure_valid_token;;
       c' ← get_self;
       retry_response ← session_get url (access_token c');
       if (status retry_response =? 200)%Z then
         data ← response_json retry_response; lift (payload_of op data)
       else
         raise (ClientResponseError url (status retry_response)
                  (retry_failure_message op +:+ str_int (status retry_response)))
     else
       raise (ClientResponseError url (status response)
                (failure_message op +:+ str_int (status response)))) w.
Proof. exact (run_is_request_with_retry op w). Qed.
